(** * The unconfirmed-transaction pool of the node (msg/node/transactionPool.go)

    A shallow embedding of [TXNPool] and of its operations, followed by the
    properties of the pool that the design document states.

    The pool is a Go struct of four maps behind one [sync.RWMutex].  Every
    helper that touches a map takes the mutex for its own body only, so the
    sequential part of this development passes the pool explicitly from one
    helper to the next, and the last part interleaves the helpers of two
    goroutines, one critical section at a time. *)

From stdpp Require Import gmap strings list fin_maps.
From Stdlib Require Import ZArith Lia.

Local Open Scope Z_scope.

(** ** Values *)

(** [common.Uint256]: a 32-byte identifier, only ever compared and used as a
    map key. *)
Abbreviation Uint256 := N.

(** [common.Fixed64] is an [int64]; its arithmetic wraps around. *)
Abbreviation Fixed64 := Z.

Definition wrap64 (z : Z) : Z := (z + 2 ^ 63) mod 2 ^ 64 - 2 ^ 63.
Definition add64 (a b : Z) : Z := wrap64 (a + b).
Definition sub64 (a b : Z) : Z := wrap64 (a - b).
Definition inFixed64 (z : Z) : Prop := - 2 ^ 63 <= z < 2 ^ 63.

(** [transaction.TransactionType], with the kinds the pool tells apart. *)
Inductive TransactionType :=
  | BookKeeping
  | IssueAsset
  | RegisterAsset
  | LockAsset
  | TransferAsset.

#[global] Instance TransactionType_eq_dec : EqDecision TransactionType.
Proof. solve_decision. Defined.

(** The payload is stored behind an interface whose dynamic type follows
    [TxType]; the pool downcasts it right after testing [TxType].  The record
    indexes the payload by the type, which is what the deserializer
    guarantees.  Of a [payload.LockAsset] the pool uses [ToString()], of a
    [payload.RegisterAsset] the field [Amount]. *)
Definition PayloadOf (t : TransactionType) : Type :=
  match t with
  | LockAsset => string
  | RegisterAsset => Fixed64
  | _ => unit
  end.

Record Transaction := mkTransaction {
  TxType : TransactionType;
  Payload : PayloadOf TxType;
  Hash : Uint256
}.

(** [txn.TxType == transaction.LockAsset], then
    [txn.Payload.( *payload.LockAsset).ToString()]. *)
Definition lockAssetPayload (txn : Transaction) : option string :=
  match TxType txn as t return PayloadOf t -> option string with
  | LockAsset => fun str => Some str
  | _ => fun _ => None
  end (Payload txn).

(** [txn.TxType == transaction.RegisterAsset], then
    [txn.Payload.( *payload.RegisterAsset).Amount]. *)
Definition registerAssetAmount (txn : Transaction) : option Fixed64 :=
  match TxType txn as t return PayloadOf t -> option Fixed64 with
  | RegisterAsset => fun amount => Some amount
  | _ => fun _ => None
  end (Payload txn).

(** [transaction.UTXOTxInput]: a previously produced output. *)
Record UTXOTxInput := mkUTXOTxInput {
  ReferTxID : Uint256;
  ReferTxOutputIndex : N
}.

(** [errors.ErrCode]: the codes the pool produces itself, and the codes of the
    two validators, which the pool passes on unread. *)
Inductive ErrCode :=
  | ErrNoError
  | ErrDoubleSpend
  | ErrDuplicateLockAsset
  | ErrSummaryAsset
  | ErrValidation (code : Z).

#[global] Instance ErrCode_eq_dec : EqDecision ErrCode.
Proof. solve_decision. Defined.

(** ** The pool *)

Record TXNPool := mkTXNPool {
  txnCnt : N;
  txnList : gmap Uint256 Transaction;
  issueSummary : gmap Uint256 Fixed64;
  inputUTXOList : gmap string Transaction;
  lockAssetList : gset string
}.

(** [init] *)
Definition init : TXNPool :=
  {| txnCnt := 0; txnList := ∅; issueSummary := ∅;
     inputUTXOList := ∅; lockAssetList := ∅ |}.

Definition set_txnList (f : gmap N Transaction -> gmap N Transaction)
    (this : TXNPool) : TXNPool :=
  {| txnCnt := txnCnt this; txnList := f (txnList this);
     issueSummary := issueSummary this;
     inputUTXOList := inputUTXOList this;
     lockAssetList := lockAssetList this |}.

Definition set_issueSummary (f : gmap N Z -> gmap N Z)
    (this : TXNPool) : TXNPool :=
  {| txnCnt := txnCnt this; txnList := txnList this;
     issueSummary := f (issueSummary this);
     inputUTXOList := inputUTXOList this;
     lockAssetList := lockAssetList this |}.

Definition set_inputUTXOList
    (f : gmap string Transaction -> gmap string Transaction)
    (this : TXNPool) : TXNPool :=
  {| txnCnt := txnCnt this; txnList := txnList this;
     issueSummary := issueSummary this;
     inputUTXOList := f (inputUTXOList this);
     lockAssetList := lockAssetList this |}.

Definition set_lockAssetList (f : gset string -> gset string)
    (this : TXNPool) : TXNPool :=
  {| txnCnt := txnCnt this; txnList := txnList this;
     issueSummary := issueSummary this;
     inputUTXOList := inputUTXOList this;
     lockAssetList := f (lockAssetList this) |}.

(** ** Helpers that do not depend on the ledger *)

(** [addtxnList] *)
Definition addtxnList (this : TXNPool) (txn : Transaction) : TXNPool * bool :=
  let txnHash := Hash txn in
  match txnList this !! txnHash with
  | Some _ => (this, false)
  | None => (set_txnList <[txnHash := txn]> this, true)
  end.

(** [deltxnList] *)
Definition deltxnList (this : TXNPool) (tx : Transaction) : TXNPool * bool :=
  let txHash := Hash tx in
  match txnList this !! txHash with
  | None => (this, false)
  | Some _ => (set_txnList (delete txHash) this, true)
  end.

(** [GetTransactionCount] *)
Definition GetTransactionCount (this : TXNPool) : Z :=
  Z.of_nat (size (txnList this)).

(** [GetTransaction] *)
Definition GetTransaction (this : TXNPool) (hash : N) : option Transaction :=
  txnList this !! hash.

(** [incrAssetIssueAmountSummary]: reading a missing key gives the zero
    value. *)
Definition incrAssetIssueAmountSummary (this : TXNPool) (assetId : N)
    (delta : Z) : TXNPool :=
  set_issueSummary
    <[assetId := add64 (default 0 (issueSummary this !! assetId)) delta]> this.

(** [decrAssetIssueAmountSummary] *)
Definition decrAssetIssueAmountSummary (this : TXNPool) (assetId : N)
    (delta : Z) : TXNPool :=
  match issueSummary this !! assetId with
  | None => this
  | Some amount =>
      let amount := sub64 amount delta in
      let amount := if amount <? 0 then 0 else amount in
      set_issueSummary <[assetId := amount]> this
  end.

(** [getAssetIssueAmount] *)
Definition getAssetIssueAmount (this : TXNPool) (assetId : N) : Z :=
  default 0 (issueSummary this !! assetId).

(** ** What the pool consumes from the rest of the node

    The transaction package ([ToString], [GetReference],
    [GetMergedAssetIDValueFromOutputs], the store [TxStore]), the validation
    package and the configuration are outside this file.  They are an
    interface here.  A failed call ([err != nil]) is [None].  A Go map that the
    pool only ranges over is the list of its entries in the order the [range]
    statement visits them, an order the language leaves open; the keys of
    [GetReference] are pointers, so two of them may print the same
    [ToString]. *)
Class Externals := {
  ToString : UTXOTxInput -> string;
  GetReference : Transaction -> option (list UTXOTxInput);
  GetMergedAssetIDValueFromOutputs : Transaction -> list (Uint256 * Fixed64);
  TxStore_GetTransaction : Uint256 -> option Transaction;
  TxStore_GetQuantityIssued : Uint256 -> option Fixed64;
  VerifyTransaction : Transaction -> ErrCode;
  VerifyTransactionWithLedger : Transaction -> ErrCode;
  MaxTxInBlock : Z
}.

(** The [error] values built in this file. *)
Inductive error :=
  | GetReferenceFailed
  | DoubleSpentDetected (claimant : Transaction) (k : UTXOTxInput)
  | DuplicatedLockingAsset.

(** ** The claimed-input index *)

(** [getInputUTXOList] *)
Definition getInputUTXOList `{Externals} (this : TXNPool)
    (input : UTXOTxInput) : option Transaction :=
  inputUTXOList this !! ToString input.

(** [addInputUTXOList] *)
Definition addInputUTXOList `{Externals} (this : TXNPool) (tx : Transaction)
    (input : UTXOTxInput) : TXNPool * bool :=
  let id := ToString input in
  match inputUTXOList this !! id with
  | Some _ => (this, false)
  | None => (set_inputUTXOList <[id := tx]> this, true)
  end.

(** [delInputUTXOList] *)
Definition delInputUTXOList `{Externals} (this : TXNPool)
    (input : UTXOTxInput) : TXNPool * bool :=
  let id := ToString input in
  match inputUTXOList this !! id with
  | None => (this, false)
  | Some _ => (set_inputUTXOList (delete id) this, true)
  end.

(** First loop of [apendToUTXOPool]: stop at the first claimed output,
    otherwise collect the keys. *)
Fixpoint checkInputs `{Externals} (this : TXNPool)
    (reference inputs : list UTXOTxInput) : error + list UTXOTxInput :=
  match reference with
  | [] => inr inputs
  | k :: reference =>
      match getInputUTXOList this k with
      | Some txn => inl (DoubleSpentDetected txn k)
      | None => checkInputs this reference (inputs ++ [k])
      end
  end.

(** Second loop of [apendToUTXOPool]; the result of [addInputUTXOList] is
    dropped. *)
Definition addInputs `{Externals} (this : TXNPool) (txn : Transaction)
    (inputs : list UTXOTxInput) : TXNPool :=
  foldl (fun this v => (addInputUTXOList this txn v).1) this inputs.

(** [apendToUTXOPool] *)
Definition apendToUTXOPool `{Externals} (this : TXNPool)
    (txn : Transaction) : TXNPool * option error :=
  match GetReference txn with
  | None => (this, Some GetReferenceFailed)
  | Some reference =>
      match checkInputs this reference [] with
      | inl err => (this, Some err)
      | inr inputs => (addInputs this txn inputs, None)
      end
  end.

(** ** The duplicate-lock guard *)

(** [checkDuplicateLockAsset] *)
Definition checkDuplicateLockAsset (this : TXNPool)
    (txn : Transaction) : TXNPool * option error :=
  match lockAssetPayload txn with
  | Some str =>
      if decide (str ∈ lockAssetList this)
      then (this, Some DuplicatedLockingAsset)
      else (set_lockAssetList (fun s => {[str]} ∪ s) this, None)
  | None => (this, None)
  end.

(** ** Issuance accounting *)

(** The loop of [summaryAssetIssueAmount]. *)
Fixpoint summaryLoop `{Externals} (this : TXNPool)
    (transactionResult : list (Uint256 * Fixed64)) : TXNPool * bool :=
  match transactionResult with
  | [] => (this, true)
  | (k, delta) :: transactionResult =>
      let this := incrAssetIssueAmountSummary this k delta in
      match TxStore_GetTransaction k with
      | None => (this, false)
      | Some txn =>
          match registerAssetAmount txn with
          | None => (this, false)
          | Some Amount =>
              if Amount <? 0 then summaryLoop this transactionResult
              else
                match TxStore_GetQuantityIssued k with
                | None => (this, false)
                | Some quantity_issued =>
                    if sub64 Amount quantity_issued
                         <? getAssetIssueAmount this k
                    then (this, false)
                    else summaryLoop this transactionResult
                end
          end
      end
  end.

(** [summaryAssetIssueAmount] *)
Definition summaryAssetIssueAmount `{Externals} (this : TXNPool)
    (txn : Transaction) : TXNPool * bool :=
  if decide (TxType txn = IssueAsset)
  then summaryLoop this (GetMergedAssetIDValueFromOutputs txn)
  else (this, true).

(** The ledger has what the check fetches for asset [k]: a registration
    record and, when that record carries a cap, the confirmed quantity. *)
Definition ledgerAnswers `{Externals} (k : Uint256) : Prop :=
  exists reg Amount,
    TxStore_GetTransaction k = Some reg /\
    registerAssetAmount reg = Some Amount /\
    (0 <= Amount -> is_Some (TxStore_GetQuantityIssued k)).

(** Asset [k] is registered with a cap (no negative marker) and
    cap - confirmed-issued < [pending]. *)
Definition capExceeded `{Externals} (k : Uint256) (pending : Fixed64) : Prop :=
  exists reg Amount quantity_issued,
    TxStore_GetTransaction k = Some reg /\
    registerAssetAmount reg = Some Amount /\
    0 <= Amount /\
    TxStore_GetQuantityIssued k = Some quantity_issued /\
    sub64 Amount quantity_issued < pending.

(** The loop shared by [removeTransaction] and [cleanIssueSummary]. *)
Definition decrAll (this : TXNPool)
    (transactionResult : list (Uint256 * Fixed64)) : TXNPool :=
  foldl (fun this kd => decrAssetIssueAmountSummary this kd.1 kd.2)
        this transactionResult.

(** The loop shared by [removeTransaction] and [cleanUTXOList]. *)
Definition delInputs `{Externals} (this : TXNPool)
    (result : list UTXOTxInput) : TXNPool :=
  foldl (fun this k => (delInputUTXOList this k).1) this result.

(** [removeTransaction] *)
Definition removeTransaction `{Externals} (this : TXNPool)
    (txn : Transaction) : TXNPool :=
  let this := (deltxnList this txn).1 in
  match GetReference txn with
  | None => this
  | Some result =>
      let this := delInputs this result in
      if decide (TxType txn = IssueAsset)
      then decrAll this (GetMergedAssetIDValueFromOutputs txn)
      else this
  end.

(** ** Admission *)

(** [verifyTransactionWithTxnPool] *)
Definition verifyTransactionWithTxnPool `{Externals} (this : TXNPool)
    (txn : Transaction) : TXNPool * ErrCode :=
  match apendToUTXOPool this txn with
  | (this, Some _) => (this, ErrDoubleSpend)
  | (this, None) =>
      match checkDuplicateLockAsset this txn with
      | (this, Some _) => (this, ErrDuplicateLockAsset)
      | (this, None) =>
          match summaryAssetIssueAmount this txn with
          | (this, false) => (removeTransaction this txn, ErrSummaryAsset)
          | (this, true) => (this, ErrNoError)
          end
      end
  end.

(** [AppendTxnPool] *)
Definition AppendTxnPool `{Externals} (this : TXNPool) (txn : Transaction)
    (poolVerify : bool) : TXNPool * ErrCode :=
  match VerifyTransaction txn with
  | ErrNoError =>
      match VerifyTransactionWithLedger txn with
      | ErrNoError =>
          if poolVerify then
            match verifyTransactionWithTxnPool this txn with
            | (this, ErrNoError) => ((addtxnList this txn).1, ErrNoError)
            | (this, errCode) => (this, errCode)
            end
          else ((addtxnList this txn).1, ErrNoError)
      | errCode => (this, errCode)
      end
  | errCode => (this, errCode)
  end.

(** ** Queries *)

(** The [range] loop of [GetTxnPool] over the entries of [txnList] in the
    order [order]. *)
Fixpoint rangeCopy (order : list (Uint256 * Transaction)) (num count : Z)
    (txnMap : gmap Uint256 Transaction) : gmap Uint256 Transaction :=
  match order with
  | [] => txnMap
  | (txnId, tx) :: order =>
      let txnMap := <[txnId := tx]> txnMap in
      let num := num + 1 in
      if num >=? count then txnMap else rangeCopy order num count txnMap
  end.

(** [GetTxnPool]; [order] is the order in which the [range] statement visits
    [txnList]. *)
Definition GetTxnPool `{Externals} (this : TXNPool)
    (order : list (Uint256 * Transaction)) (byCount : bool)
    : gmap Uint256 Transaction :=
  let count := MaxTxInBlock in
  let byCount := if count <=? 0 then false else byCount in
  let len := Z.of_nat (size (txnList this)) in
  let count := if (len <? count) || negb byCount then len else count in
  rangeCopy order 0 count ∅.

(** ** Reconciliation with a committed block *)

(** [cleanTransactionList]; the two counters only feed the log. *)
Definition cleanTransactionList (this : TXNPool)
    (txns : list Transaction) : TXNPool * (Z * Z) :=
  foldl (fun '(this, (txnsNum, cleaned)) txn =>
           if decide (TxType txn = BookKeeping)
           then (this, (txnsNum - 1, cleaned))
           else
             match deltxnList this txn with
             | (this, true) => (this, (txnsNum, cleaned + 1))
             | (this, false) => (this, (txnsNum, cleaned))
             end)
        (this, (Z.of_nat (length txns), 0)) txns.

(** [cleanUTXOList]; a failed [GetReference] leaves a nil map to range over. *)
Definition cleanUTXOList `{Externals} (this : TXNPool)
    (txs : list Transaction) : TXNPool :=
  foldl (fun this txn => delInputs this (default [] (GetReference txn)))
        this txs.

(** [cleanLockedAssetList] *)
Definition cleanLockedAssetList (this : TXNPool)
    (txs : list Transaction) : TXNPool :=
  foldl (fun this txn =>
           match lockAssetPayload txn with
           | Some str => set_lockAssetList (fun s => s ∖ {[str]}) this
           | None => this
           end)
        this txs.

(** [cleanIssueSummary] *)
Definition cleanIssueSummary `{Externals} (this : TXNPool)
    (txs : list Transaction) : TXNPool :=
  foldl (fun this v =>
           if decide (TxType v = IssueAsset)
           then decrAll this (GetMergedAssetIDValueFromOutputs v)
           else this)
        this txs.

(** [CleanSubmittedTransactions]; a block is used through its
    [Transactions]. *)
Definition CleanSubmittedTransactions `{Externals} (this : TXNPool)
    (block : list Transaction) : TXNPool :=
  let this := (cleanTransactionList this block).1 in
  let this := cleanUTXOList this block in
  let this := cleanLockedAssetList this block in
  cleanIssueSummary this block.

(** What the merged outputs [l] issue of asset [a], and what the issuing
    transactions of a block issue of it. *)
Definition issuedIn (l : list (Uint256 * Fixed64)) (a : Uint256) : Z :=
  foldr (fun kd acc => if decide (kd.1 = a) then kd.2 + acc else acc) 0 l.

Definition blockIssued `{Externals} (block : list Transaction)
    (a : Uint256) : Z :=
  foldr (fun v acc =>
           if decide (TxType v = IssueAsset)
           then issuedIn (GetMergedAssetIDValueFromOutputs v) a + acc
           else acc)
        0 block.

(** Amounts are not negative and fit a [Fixed64]. *)
Definition amount (z : Z) : Prop := 0 <= z < 2 ^ 63.

(** ** Two goroutines in [apendToUTXOPool]

    [getInputUTXOList] and [addInputUTXOList] each lock the pool for their own
    body and unlock it on return; [apendToUTXOPool] itself holds nothing
    between them.  A goroutine is therefore a sequence of critical sections,
    and the scheduler may switch goroutine after each of them. *)
Inductive goroutine :=
  | InCheck (txn : Transaction) (reference inputs : list UTXOTxInput)
  | InAdd (txn : Transaction) (inputs : list UTXOTxInput)
  | Returned (err : option error).

(** Entry of [apendToUTXOPool]: [GetReference] reads no pool field. *)
Definition enter `{Externals} (txn : Transaction) : goroutine :=
  match GetReference txn with
  | None => Returned (Some GetReferenceFailed)
  | Some reference => InCheck txn reference []
  end.

(** One step of a goroutine: its next critical section, or, between two of
    them, leaving a loop or returning. *)
Definition step `{Externals} (this : TXNPool)
    (g : goroutine) : TXNPool * goroutine :=
  match g with
  | InCheck txn [] inputs => (this, InAdd txn inputs)
  | InCheck txn (k :: reference) inputs =>
      match getInputUTXOList this k with
      | Some claimant => (this, Returned (Some (DoubleSpentDetected claimant k)))
      | None => (this, InCheck txn reference (inputs ++ [k]))
      end
  | InAdd txn [] => (this, Returned None)
  | InAdd txn (v :: inputs) =>
      ((addInputUTXOList this txn v).1, InAdd txn inputs)
  | Returned err => (this, Returned err)
  end.

(** A schedule names, step by step, the goroutine that runs: [false] the
    first, [true] the second. *)
Fixpoint run `{Externals} (schedule : list bool) (this : TXNPool)
    (g1 g2 : goroutine) : TXNPool * goroutine * goroutine :=
  match schedule with
  | [] => (this, g1, g2)
  | false :: schedule =>
      let '(this, g1) := step this g1 in run schedule this g1 g2
  | true :: schedule =>
      let '(this, g2) := step this g2 in run schedule this g1 g2
  end.

(** One goroutine alone, for [n] steps. *)
Fixpoint alone `{Externals} (n : nat) (this : TXNPool)
    (g : goroutine) : TXNPool * goroutine :=
  match n with
  | O => (this, g)
  | S n => let '(this, g) := step this g in alone n this g
  end.

(** ** A small ledger to run the pool on *)

Module Sample.

Definition ToString (input : UTXOTxInput) : string :=
  String (Ascii.ascii_of_N (ReferTxID input))
    (String (Ascii.ascii_of_N (ReferTxOutputIndex input)) EmptyString).

(** Registration records: asset 10 capped at 100, asset 11 capped at 1000,
    asset 12 without a cap. *)
Definition regA : Transaction := mkTransaction RegisterAsset 100 10%N.
Definition regB : Transaction := mkTransaction RegisterAsset 1000 11%N.
Definition regU : Transaction := mkTransaction RegisterAsset (-1) 12%N.

(** Two transfers that spend the same output (7,0). *)
Definition T1 : Transaction := mkTransaction TransferAsset tt 1%N.
Definition T2 : Transaction := mkTransaction TransferAsset tt 2%N.
(** Two locks of the same target. *)
Definition L1 : Transaction := mkTransaction LockAsset "lock"%string 3%N.
Definition L2 : Transaction := mkTransaction LockAsset "lock"%string 4%N.
(** Issues: 200 of asset 10 and 10 of asset 11; 50 of asset 11; 50 and 60 of
    asset 11; 5 of asset 12. *)
Definition I1 : Transaction := mkTransaction IssueAsset tt 5%N.
Definition I2 : Transaction := mkTransaction IssueAsset tt 6%N.
Definition I3 : Transaction := mkTransaction IssueAsset tt 8%N.
Definition I4 : Transaction := mkTransaction IssueAsset tt 9%N.
Definition I5 : Transaction := mkTransaction IssueAsset tt 13%N.
(** The reward transaction of a block. *)
Definition B0 : Transaction := mkTransaction BookKeeping tt 0%N.

Definition out (i : N) : UTXOTxInput := mkUTXOTxInput 7 i.

Definition GetReference (txn : Transaction) : option (list UTXOTxInput) :=
  match Hash txn with
  | 1%N | 2%N => Some [out 0]
  | 3%N => Some [out 1]
  | 4%N => Some [out 2]
  | 5%N => Some [out 3]
  | 6%N => Some [out 4]
  | 8%N => Some [out 5]
  | 9%N => Some [out 6]
  | _ => Some []
  end.

Definition GetMergedAssetIDValueFromOutputs (txn : Transaction)
    : list (Uint256 * Fixed64) :=
  match Hash txn with
  | 5%N => [(10%N, 200); (11%N, 10)]
  | 6%N => [(11%N, 50)]
  | 8%N => [(11%N, 50)]
  | 9%N => [(11%N, 60)]
  | 13%N => [(12%N, 5)]
  | _ => []
  end.

Definition TxStore_GetTransaction (k : Uint256) : option Transaction :=
  match k with
  | 10%N => Some regA
  | 11%N => Some regB
  | 12%N => Some regU
  | _ => None
  end.

(** 900 of asset 11 are confirmed, nothing of the others. *)
Definition TxStore_GetQuantityIssued (k : Uint256) : option Fixed64 :=
  match k with
  | 11%N => Some 900
  | _ => Some 0
  end.

Definition externals (max : Z) : Externals :=
  Build_Externals ToString GetReference GetMergedAssetIDValueFromOutputs
    TxStore_GetTransaction TxStore_GetQuantityIssued
    (fun _ => ErrNoError) (fun _ => ErrNoError) max.

Definition E : Externals := externals 0.

(** The pool after admitting [txn] with the pool checks on. *)
Definition accept (this : TXNPool) (txn : Transaction) : TXNPool :=
  (@AppendTxnPool E this txn true).1.

End Sample.

(** [copytxnList]; [order] is the order in which the [range] statement visits
    [txnList]. *)
Definition copytxnList (this : TXNPool)
    (order : list (Uint256 * Transaction)) : gmap Uint256 Transaction :=
  foldl (fun txnMap kv => <[kv.1 := kv.2]> txnMap) ∅ order.

(** ** Variations of the sample ledger *)

Module Variant.

(** Validators that answer [errCode1] and [errCode2]. *)
Definition rejecting (errCode1 errCode2 : ErrCode) : Externals :=
  Build_Externals Sample.ToString Sample.GetReference
    Sample.GetMergedAssetIDValueFromOutputs
    Sample.TxStore_GetTransaction Sample.TxStore_GetQuantityIssued
    (fun _ => errCode1) (fun _ => errCode2) 0.

(** A store that cannot resolve the inputs of any transaction. *)
Definition unresolved : Externals :=
  Build_Externals Sample.ToString (fun _ => None)
    Sample.GetMergedAssetIDValueFromOutputs
    Sample.TxStore_GetTransaction Sample.TxStore_GetQuantityIssued
    (fun _ => ErrNoError) (fun _ => ErrNoError) 0.

(** Every transaction issues one unit of asset 99, which nobody registered. *)
Definition unregistered : Externals :=
  Build_Externals Sample.ToString Sample.GetReference
    (fun _ => [(99%N, 1)])
    Sample.TxStore_GetTransaction Sample.TxStore_GetQuantityIssued
    (fun _ => ErrNoError) (fun _ => ErrNoError) 0.

End Variant.

(** * Properties *)

(** ** Fixed-point arithmetic *)

Lemma wrap64_inFixed64 (z : Z) : inFixed64 (wrap64 z).
Proof.
  unfold inFixed64, wrap64.
  pose proof (Z.mod_pos_bound (z + 2 ^ 63) (2 ^ 64) ltac:(lia)). lia.
Qed.

Lemma wrap64_small (z : Z) : inFixed64 z -> wrap64 z = z.
Proof.
  unfold inFixed64, wrap64. intros Hz.
  rewrite Z.mod_small by lia. lia.
Qed.

Lemma sub64_add64 (a b : Z) : inFixed64 a -> sub64 (add64 a b) b = a.
Proof.
  intros Ha. unfold sub64, add64, wrap64.
  replace ((a + b + 2 ^ 63) mod 2 ^ 64 - 2 ^ 63 - b + 2 ^ 63)
    with ((a + b + 2 ^ 63) mod 2 ^ 64 - b) by lia.
  rewrite Zminus_mod_idemp_l.
  replace (a + b + 2 ^ 63 - b) with (a + 2 ^ 63) by lia.
  apply wrap64_small in Ha. unfold wrap64 in Ha. exact Ha.
Qed.

(** ** The issuance summary *)

Lemma getAssetIssueAmount_incr_eq this k delta :
  getAssetIssueAmount (incrAssetIssueAmountSummary this k delta) k
  = add64 (getAssetIssueAmount this k) delta.
Proof.
  unfold getAssetIssueAmount, incrAssetIssueAmountSummary. simpl.
  by rewrite lookup_insert_eq.
Qed.

Lemma getAssetIssueAmount_incr_ne this k k' delta :
  k ≠ k' ->
  getAssetIssueAmount (incrAssetIssueAmountSummary this k delta) k'
  = getAssetIssueAmount this k'.
Proof.
  intros Hne. unfold getAssetIssueAmount, incrAssetIssueAmountSummary. simpl.
  by rewrite lookup_insert_ne.
Qed.

Lemma decr_unfold this assetId delta old :
  issueSummary this !! assetId = Some old ->
  decrAssetIssueAmountSummary this assetId delta
  = set_issueSummary <[assetId := Z.max (sub64 old delta) 0]> this.
Proof.
  intros Hold. unfold decrAssetIssueAmountSummary. rewrite Hold.
  destruct (Z.ltb_spec (sub64 old delta) 0); f_equal; f_equal; lia.
Qed.

Lemma decr_absent this assetId delta :
  issueSummary this !! assetId = None ->
  decrAssetIssueAmountSummary this assetId delta = this.
Proof. intros Hnone. unfold decrAssetIssueAmountSummary. by rewrite Hnone. Qed.

Lemma decr_other_fields this assetId delta :
  let this' := decrAssetIssueAmountSummary this assetId delta in
  txnCnt this' = txnCnt this /\ txnList this' = txnList this /\
  inputUTXOList this' = inputUTXOList this /\
  lockAssetList this' = lockAssetList this.
Proof.
  unfold decrAssetIssueAmountSummary.
  destruct (issueSummary this !! assetId); simpl; auto.
Qed.

Lemma decr_lookup_ne this assetId delta k :
  assetId ≠ k ->
  issueSummary (decrAssetIssueAmountSummary this assetId delta) !! k
  = issueSummary this !! k.
Proof.
  intros Hne. unfold decrAssetIssueAmountSummary.
  destruct (issueSummary this !! assetId); simpl; [|done].
  by rewrite lookup_insert_ne.
Qed.

(** C10.  Decrementing the summary of an asset without an entry changes
    nothing, and no entry appears.  With an entry [old], the entry becomes
    max (old - delta, 0), the subtraction being the one of [Fixed64] (it is
    the integer subtraction whenever that stays within 64 bits) and every
    other entry and field staying put.  Whatever is stored for the asset after
    a decrement is not negative. *)
Theorem decrAssetIssueAmountSummary_clamps (this : TXNPool)
    (assetId : Uint256) (delta : Fixed64) :
  let this' := decrAssetIssueAmountSummary this assetId delta in
  (issueSummary this !! assetId = None -> this' = this) /\
  (forall old : Fixed64, issueSummary this !! assetId = Some old ->
     issueSummary this' !! assetId = Some (Z.max (sub64 old delta) 0) /\
     (inFixed64 (old - delta) ->
        issueSummary this' !! assetId = Some (Z.max (old - delta) 0)) /\
     (forall k : Uint256, k ≠ assetId ->
        issueSummary this' !! k = issueSummary this !! k) /\
     txnList this' = txnList this /\
     inputUTXOList this' = inputUTXOList this /\
     lockAssetList this' = lockAssetList this) /\
  (forall v : Fixed64, issueSummary this' !! assetId = Some v -> 0 <= v).
Proof.
  intros this'. subst this'. split; [apply decr_absent|]. split.
  - intros old Hold. rewrite (decr_unfold _ _ _ _ Hold). simpl.
    rewrite lookup_insert_eq. split; [done|]. split.
    + intros Hfit. unfold sub64. by rewrite wrap64_small.
    + split; [|done]. intros k Hk. by rewrite lookup_insert_ne.
  - intros v. destruct (issueSummary this !! assetId) as [old|] eqn:Hold.
    + rewrite (decr_unfold _ _ _ _ Hold). simpl. rewrite lookup_insert_eq.
      intros [= <-]. lia.
    + rewrite decr_absent by done. congruence.
Qed.

Section Pool.
Context `{E : Externals}.

(** ** The claimed-input index *)

Lemma checkInputs_inr this reference inputs :
  (forall k, k ∈ reference -> inputUTXOList this !! ToString k = None) ->
  checkInputs this reference inputs = inr (inputs ++ reference).
Proof.
  revert inputs. induction reference as [|k reference IH]; intros inputs Hfree.
  - by rewrite app_nil_r.
  - simpl. unfold getInputUTXOList. rewrite Hfree by left.
    rewrite IH; [by rewrite <- app_assoc|].
    intros k' Hk'. apply Hfree. by right.
Qed.

Lemma checkInputs_inl this reference inputs k :
  k ∈ reference -> is_Some (inputUTXOList this !! ToString k) ->
  exists err, checkInputs this reference inputs = inl err.
Proof.
  revert inputs. induction reference as [|k' reference IH]; intros inputs Hin Hk.
  - by apply elem_of_nil in Hin.
  - simpl. unfold getInputUTXOList.
    destruct (inputUTXOList this !! ToString k') as [claimant|] eqn:Hk'.
    + eauto.
    + apply elem_of_cons in Hin as [->|Hin].
      * rewrite Hk' in Hk. by destruct Hk.
      * by apply IH.
Qed.

Lemma addInputUTXOList_fields this tx input :
  let this' := (addInputUTXOList this tx input).1 in
  txnCnt this' = txnCnt this /\ txnList this' = txnList this /\
  issueSummary this' = issueSummary this /\
  lockAssetList this' = lockAssetList this.
Proof.
  unfold addInputUTXOList.
  destruct (inputUTXOList this !! ToString input); simpl; auto.
Qed.

Lemma addInputUTXOList_lookup this tx input s :
  inputUTXOList (addInputUTXOList this tx input).1 !! s
  = match inputUTXOList this !! s with
    | Some claimant => Some claimant
    | None => if decide (s = ToString input) then Some tx else None
    end.
Proof.
  unfold addInputUTXOList.
  destruct (inputUTXOList this !! ToString input) as [c|] eqn:Hc; simpl.
  - destruct (inputUTXOList this !! s) eqn:Hs; [done|].
    case_decide; [congruence|done].
  - destruct (decide (s = ToString input)) as [->|Hne].
    + by rewrite lookup_insert_eq, Hc.
    + rewrite lookup_insert_ne by done. by destruct (inputUTXOList this !! s).
Qed.

Lemma addInputs_fields this txn inputs :
  let this' := addInputs this txn inputs in
  txnCnt this' = txnCnt this /\ txnList this' = txnList this /\
  issueSummary this' = issueSummary this /\
  lockAssetList this' = lockAssetList this.
Proof.
  revert this. induction inputs as [|v inputs IH]; intros this; simpl; [auto|].
  destruct (IH (addInputUTXOList this txn v).1) as (H1 & H2 & H3 & H4).
  destruct (addInputUTXOList_fields this txn v) as (G1 & G2 & G3 & G4).
  unfold addInputs in *. simpl in *. repeat split; congruence.
Qed.

Lemma addInputs_lookup this txn inputs s :
  inputUTXOList (addInputs this txn inputs) !! s
  = match inputUTXOList this !! s with
    | Some claimant => Some claimant
    | None => if decide (s ∈ ToString <$> inputs) then Some txn else None
    end.
Proof.
  revert this. induction inputs as [|v inputs IH]; intros this.
  - simpl. destruct (inputUTXOList this !! s); [done|].
    destruct (decide (s ∈ ToString <$> [])) as [Hin|]; [|done].
    by apply elem_of_nil in Hin.
  - unfold addInputs in *. simpl. rewrite IH, addInputUTXOList_lookup.
    destruct (inputUTXOList this !! s); [done|].
    change (ToString <$> v :: inputs)
      with (ToString v :: (ToString <$> inputs)).
    destruct (decide (s = ToString v)) as [->|Hne].
    + rewrite decide_True; [done|]. by left.
    + destruct (decide (s ∈ ToString <$> inputs)) as [Hin|Hnin].
      * rewrite decide_True; [done|]. by right.
      * rewrite decide_False; [done|].
        intros [?|?]%elem_of_cons; done.
Qed.

(** [apendToUTXOPool] with a claimed output among the references: an error,
    and the pool as it was. *)
Lemma apendToUTXOPool_claimed this txn reference k :
  GetReference txn = Some reference ->
  k ∈ reference -> is_Some (inputUTXOList this !! ToString k) ->
  exists err, apendToUTXOPool this txn = (this, Some err).
Proof.
  intros Href Hin Hk. unfold apendToUTXOPool. rewrite Href.
  destruct (checkInputs_inl this reference [] k Hin Hk) as [err ->]. eauto.
Qed.

Lemma apendToUTXOPool_failed_reference this txn :
  GetReference txn = None ->
  apendToUTXOPool this txn = (this, Some GetReferenceFailed).
Proof. intros Href. unfold apendToUTXOPool. by rewrite Href. Qed.

(** [apendToUTXOPool] with every reference free: all of them are claimed. *)
Lemma apendToUTXOPool_free this txn reference :
  GetReference txn = Some reference ->
  (forall k, k ∈ reference -> inputUTXOList this !! ToString k = None) ->
  apendToUTXOPool this txn = (addInputs this txn reference, None).
Proof.
  intros Href Hfree. unfold apendToUTXOPool. rewrite Href.
  by rewrite checkInputs_inr.
Qed.

(** An error of [apendToUTXOPool] leaves the pool as it was. *)
Lemma apendToUTXOPool_error this txn this' err :
  apendToUTXOPool this txn = (this', Some err) -> this' = this.
Proof.
  unfold apendToUTXOPool. destruct (GetReference txn) as [l|]; [|congruence].
  destruct (checkInputs this l []); congruence.
Qed.

(** A success of [apendToUTXOPool] had every reference free. *)
Lemma apendToUTXOPool_ok this txn this' :
  apendToUTXOPool this txn = (this', None) ->
  exists reference, GetReference txn = Some reference /\
    (forall k, k ∈ reference -> inputUTXOList this !! ToString k = None) /\
    this' = addInputs this txn reference.
Proof.
  unfold apendToUTXOPool.
  destruct (GetReference txn) as [reference|] eqn:Href; [|done].
  destruct (checkInputs this reference []) as [err|inputs] eqn:Hchk; [done|].
  intros [= <-]. exists reference. split; [done|].
  assert (Hfree : forall k, k ∈ reference ->
                    inputUTXOList this !! ToString k = None).
  { intros k Hin.
    destruct (inputUTXOList this !! ToString k) as [c|] eqn:Hk; [|done].
    destruct (checkInputs_inl this reference [] k Hin) as [err Herr]; [eauto|].
    congruence. }
  split; [done|]. rewrite checkInputs_inr in Hchk by done.
  simpl in Hchk. congruence.
Qed.

(** ** The later checks do not touch the claimed-input index *)

Lemma checkDuplicateLockAsset_fields this txn :
  let this' := (checkDuplicateLockAsset this txn).1 in
  txnCnt this' = txnCnt this /\ txnList this' = txnList this /\
  issueSummary this' = issueSummary this /\
  inputUTXOList this' = inputUTXOList this.
Proof.
  unfold checkDuplicateLockAsset.
  destruct (lockAssetPayload txn); [case_decide|]; simpl; auto.
Qed.

Lemma checkDuplicateLockAsset_error this txn this' err :
  checkDuplicateLockAsset this txn = (this', Some err) -> this' = this.
Proof.
  unfold checkDuplicateLockAsset.
  destruct (lockAssetPayload txn); [case_decide|]; congruence.
Qed.

Lemma summaryLoop_fields this l :
  let this' := (summaryLoop this l).1 in
  txnCnt this' = txnCnt this /\ txnList this' = txnList this /\
  inputUTXOList this' = inputUTXOList this /\
  lockAssetList this' = lockAssetList this.
Proof.
  revert this. induction l as [|[k delta] l IH]; intros this; simpl; [auto|].
  set (this1 := incrAssetIssueAmountSummary this k delta).
  specialize (IH this1).
  destruct (TxStore_GetTransaction k) as [reg|]; [|simpl; auto].
  destruct (registerAssetAmount reg) as [Amount|]; [|simpl; auto].
  destruct (Amount <? 0); [exact IH|].
  destruct (TxStore_GetQuantityIssued k) as [q|]; [|simpl; auto].
  destruct (sub64 Amount q <? getAssetIssueAmount this1 k); [simpl; auto|].
  exact IH.
Qed.

Lemma summaryAssetIssueAmount_fields this txn :
  let this' := (summaryAssetIssueAmount this txn).1 in
  txnCnt this' = txnCnt this /\ txnList this' = txnList this /\
  inputUTXOList this' = inputUTXOList this /\
  lockAssetList this' = lockAssetList this.
Proof.
  unfold summaryAssetIssueAmount. case_decide; [|simpl; auto].
  apply summaryLoop_fields.
Qed.

(** C1.  Let the transaction reference the outputs [reference].  If one of
    them is already in the claimed-input index, verification against the pool
    answers [ErrDoubleSpend] and returns the pool it was given: nothing was
    added to or removed from any index.  Otherwise the double-spend check
    passes and records the transaction as the claimant of every referenced
    output, touching neither other keys nor the other indexes; the
    verification does not answer [ErrDoubleSpend], and the claims are in the
    pool it returns unless the issuance check rejects the transaction, which
    rolls them back. *)
Theorem verifyTransactionWithTxnPool_double_spend (this : TXNPool)
    (txn : Transaction) (reference : list UTXOTxInput) :
  GetReference txn = Some reference ->
  ((exists k, k ∈ reference /\ is_Some (inputUTXOList this !! ToString k)) ->
     verifyTransactionWithTxnPool this txn = (this, ErrDoubleSpend)) /\
  ((forall k, k ∈ reference -> inputUTXOList this !! ToString k = None) ->
     exists this1, apendToUTXOPool this txn = (this1, None) /\
       (forall k, k ∈ reference ->
          inputUTXOList this1 !! ToString k = Some txn) /\
       (forall s, s ∉ ToString <$> reference ->
          inputUTXOList this1 !! s = inputUTXOList this !! s) /\
       txnList this1 = txnList this /\
       issueSummary this1 = issueSummary this /\
       lockAssetList this1 = lockAssetList this /\
       (verifyTransactionWithTxnPool this txn).2 ≠ ErrDoubleSpend /\
       ((verifyTransactionWithTxnPool this txn).2 ≠ ErrSummaryAsset ->
          forall k, k ∈ reference ->
            inputUTXOList (verifyTransactionWithTxnPool this txn).1
              !! ToString k = Some txn)).
Proof.
  intros Href. split.
  - intros (k & Hin & Hk). unfold verifyTransactionWithTxnPool.
    by destruct (apendToUTXOPool_claimed this txn reference k Href Hin Hk)
      as [err ->].
  - intros Hfree. exists (addInputs this txn reference).
    pose proof (apendToUTXOPool_free this txn reference Href Hfree) as Happ.
    destruct (addInputs_fields this txn reference) as (_ & Htl & Hsum & Hlock).
    assert (Hclaimed : forall k, k ∈ reference ->
              inputUTXOList (addInputs this txn reference) !! ToString k
              = Some txn).
    { intros k Hin. rewrite addInputs_lookup, Hfree by done.
      rewrite decide_True; [done|]. by apply list_elem_of_fmap_2. }
    repeat split; try done.
    + intros s Hs. rewrite addInputs_lookup.
      destruct (inputUTXOList this !! s); [done|]. by rewrite decide_False.
    + unfold verifyTransactionWithTxnPool. rewrite Happ.
      destruct (checkDuplicateLockAsset _ txn) as [this2 [err|]]; [done|].
      by destruct (summaryAssetIssueAmount this2 txn) as [this3 []].
    + unfold verifyTransactionWithTxnPool. rewrite Happ.
      pose proof (checkDuplicateLockAsset_fields
                    (addInputs this txn reference) txn) as Hdup.
      destruct (checkDuplicateLockAsset _ txn) as [this2 [err|]] eqn:Hchk.
      * simpl. apply checkDuplicateLockAsset_error in Hchk. by subst.
      * simpl in Hdup. destruct Hdup as (_ & _ & _ & Hin2).
        pose proof (summaryAssetIssueAmount_fields this2 txn) as Hs.
        destruct (summaryAssetIssueAmount this2 txn) as [this3 []];
          simpl in *; [|done].
        destruct Hs as (_ & _ & Hin3 & _). intros _ k Hin.
        rewrite Hin3, Hin2. by apply Hclaimed.
Qed.

(** ** The issuance-cap check *)

Lemma incr_lookup_ne this k k' delta :
  k ≠ k' ->
  issueSummary (incrAssetIssueAmountSummary this k delta) !! k'
  = issueSummary this !! k'.
Proof. intros Hne. simpl. by rewrite lookup_insert_ne. Qed.

(** One turn of the loop of [summaryAssetIssueAmount]: the amount is added
    first, and the turn rejects exactly when the cap is exceeded by the
    updated entry. *)
Lemma summaryLoop_cons this k delta l :
  ledgerAnswers k ->
  let this1 := incrAssetIssueAmountSummary this k delta in
  (capExceeded k (add64 (getAssetIssueAmount this k) delta) /\
   summaryLoop this ((k, delta) :: l) = (this1, false)) \/
  (~ capExceeded k (add64 (getAssetIssueAmount this k) delta) /\
   summaryLoop this ((k, delta) :: l) = summaryLoop this1 l).
Proof.
  intros (reg & Amount & Hreg & Hamount & Hq) this1. simpl. fold this1.
  rewrite Hreg, Hamount.
  assert (Hget : getAssetIssueAmount this1 k
                 = add64 (getAssetIssueAmount this k) delta)
    by apply getAssetIssueAmount_incr_eq.
  destruct (Z.ltb_spec Amount 0) as [Hneg|Hpos].
  - right. split; [|done].
    intros (reg' & Amount' & q' & Hreg' & Hamount' & Hpos' & _).
    rewrite Hreg in Hreg'. injection Hreg' as <-.
    rewrite Hamount in Hamount'. injection Hamount' as <-. lia.
  - destruct (Hq Hpos) as [q Hquant]. rewrite Hquant, Hget.
    destruct (Z.ltb_spec (sub64 Amount q)
                (add64 (getAssetIssueAmount this k) delta)) as [Hlt|Hge].
    + left. split; [|done]. by exists reg, Amount, q.
    + right. split; [|done].
      intros (reg' & Amount' & q' & Hreg' & Hamount' & _ & Hquant' & Hlt).
      rewrite Hreg in Hreg'. injection Hreg' as <-.
      rewrite Hamount in Hamount'. injection Hamount' as <-.
      rewrite Hquant in Hquant'. injection Hquant' as <-. lia.
Qed.

Lemma summaryLoop_spec this l :
  NoDup l.*1 ->
  (forall k delta, (k, delta) ∈ l -> ledgerAnswers k) ->
  ((summaryLoop this l).2 = false <->
     exists k delta, (k, delta) ∈ l /\
       capExceeded k (add64 (getAssetIssueAmount this k) delta)) /\
  ((summaryLoop this l).2 = true ->
     (forall k delta, (k, delta) ∈ l ->
        issueSummary (summaryLoop this l).1 !! k
        = Some (add64 (getAssetIssueAmount this k) delta)) /\
     (forall k, k ∉ l.*1 ->
        issueSummary (summaryLoop this l).1 !! k = issueSummary this !! k)).
Proof.
  revert this. induction l as [|[k delta] l IH]; intros this Hnodup Hledger.
  - simpl. split.
    + split; [done|]. intros (k & delta & Hin & _). by apply elem_of_nil in Hin.
    + intros _. split; [|done]. intros k delta Hin. by apply elem_of_nil in Hin.
  - apply NoDup_cons in Hnodup as [Hk Hnodup].
    set (this1 := incrAssetIssueAmountSummary this k delta).
    assert (Hother : forall k' delta', (k', delta') ∈ l ->
              getAssetIssueAmount this1 k' = getAssetIssueAmount this k').
    { intros k' delta' Hin. apply getAssetIssueAmount_incr_ne.
      intros ->. apply Hk. apply list_elem_of_fmap. by exists (k', delta'). }
    destruct (IH this1 Hnodup) as [IHfalse IHtrue].
    { intros k' delta' Hin. apply (Hledger k' delta'). by right. }
    destruct (summaryLoop_cons this k delta l) as [[Hex Heq]|[Hnex Heq]].
    { apply (Hledger k delta). by left. }
    + rewrite Heq. simpl. split; [|done]. split; [|done].
      intros _. exists k, delta. split; [by left|done].
    + rewrite Heq. fold this1. split.
      * rewrite IHfalse. split.
        -- intros (k' & delta' & Hin & Hex). exists k', delta'.
           split; [by right|]. by rewrite <- (Hother k' delta').
        -- intros (k' & delta' & Hin & Hex).
           apply elem_of_cons in Hin as [[= -> ->]|Hin]; [done|].
           exists k', delta'. split; [done|]. by rewrite (Hother k' delta').
      * intros Htrue. destruct (IHtrue Htrue) as [Hin Hout]. split.
        -- intros k' delta' [[= -> ->]|Hin']%elem_of_cons.
           ++ rewrite Hout by done. subst this1. simpl.
              by rewrite lookup_insert_eq.
           ++ rewrite (Hin k' delta' Hin'). by rewrite (Hother k' delta').
        -- intros k' Hk'. rewrite Hout.
           ++ apply incr_lookup_ne. intros ->. apply Hk'. by left.
           ++ intros Hin'. apply Hk'. by right.
Qed.

(** C2.  Take an issuing transaction that passes the double-spend check and
    whose assets the ledger knows.  Each asset's amount is added to its
    summary entry before the cap is looked at, so the test reads the entry
    with the amount in it: the verifier answers [ErrSummaryAsset] exactly when
    some issued asset is registered with a cap (an asset registered with the
    negative marker is never tested) and cap - confirmed-issued is below the
    asset's pending summary, amount included.  When it does not, it answers
    [ErrNoError] and every issued asset's entry holds the old value plus
    the amount. *)
Theorem verifyTransactionWithTxnPool_issuance_cap (this : TXNPool)
    (txn : Transaction) (reference : list UTXOTxInput) :
  TxType txn = IssueAsset ->
  GetReference txn = Some reference ->
  (forall k, k ∈ reference -> inputUTXOList this !! ToString k = None) ->
  NoDup (GetMergedAssetIDValueFromOutputs txn).*1 ->
  (forall k delta, (k, delta) ∈ GetMergedAssetIDValueFromOutputs txn ->
     ledgerAnswers k) ->
  ((verifyTransactionWithTxnPool this txn).2 = ErrSummaryAsset <->
     exists k delta, (k, delta) ∈ GetMergedAssetIDValueFromOutputs txn /\
       capExceeded k (add64 (getAssetIssueAmount this k) delta)) /\
  ((verifyTransactionWithTxnPool this txn).2 ≠ ErrSummaryAsset ->
     (verifyTransactionWithTxnPool this txn).2 = ErrNoError /\
     forall k delta, (k, delta) ∈ GetMergedAssetIDValueFromOutputs txn ->
       getAssetIssueAmount (verifyTransactionWithTxnPool this txn).1 k
       = add64 (getAssetIssueAmount this k) delta).
Proof.
  intros Htype Href Hfree Hnodup Hledger.
  unfold verifyTransactionWithTxnPool.
  rewrite (apendToUTXOPool_free this txn reference Href Hfree).
  set (this1 := addInputs this txn reference).
  assert (Hsum1 : issueSummary this1 = issueSummary this)
    by apply addInputs_fields.
  assert (Hget : forall k, getAssetIssueAmount this1 k
                           = getAssetIssueAmount this k).
  { intros k. unfold getAssetIssueAmount. by rewrite Hsum1. }
  assert (Hlock : lockAssetPayload txn = None).
  { unfold lockAssetPayload. destruct txn as [ty p h]. simpl in *. by subst. }
  unfold checkDuplicateLockAsset. rewrite Hlock.
  unfold summaryAssetIssueAmount. rewrite decide_True by done.
  destruct (summaryLoop_spec this1 _ Hnodup Hledger) as [Hfalse Htrue].
  destruct (summaryLoop this1 (GetMergedAssetIDValueFromOutputs txn))
    as [this2 ok] eqn:Hloop.
  simpl in Hfalse, Htrue. destruct ok; simpl.
  - split.
    + split; [done|]. intros (k & delta & Hin & Hex).
      assert (true = false); [|done]. apply Hfalse.
      exists k, delta. by rewrite Hget.
    + intros _. split; [done|]. intros k delta Hin.
      destruct (Htrue eq_refl) as [Hin2 _]. unfold getAssetIssueAmount at 1.
      by rewrite (Hin2 k delta Hin), Hget.
  - split; [|done]. split; [|done]. intros _.
    destruct Hfalse as [Hfalse _].
    destruct (Hfalse eq_refl) as (k & delta & Hin & Hex).
    exists k, delta. by rewrite <- Hget.
Qed.

(** ** Removal *)

Lemma deltxnList_eq this tx :
  (deltxnList this tx).1 = set_txnList (delete (Hash tx)) this.
Proof.
  unfold deltxnList. destruct (txnList this !! Hash tx) eqn:Hl; [done|].
  destruct this. unfold set_txnList. simpl in *. f_equal.
  symmetry. by apply delete_id.
Qed.

Lemma delInputUTXOList_eq this input :
  (delInputUTXOList this input).1
  = set_inputUTXOList (delete (ToString input)) this.
Proof.
  unfold delInputUTXOList.
  destruct (inputUTXOList this !! ToString input) eqn:Hl; [done|].
  destruct this. unfold set_inputUTXOList. simpl in *. f_equal.
  symmetry. by apply delete_id.
Qed.

Lemma delInputs_eq this result :
  delInputs this result
  = set_inputUTXOList
      (fun m => foldl (fun m k => delete (ToString k) m) m result) this.
Proof.
  revert this. induction result as [|k result IH]; intros this.
  - by destruct this.
  - unfold delInputs in *. simpl. rewrite IH, delInputUTXOList_eq. done.
Qed.

Lemma foldl_delete_lookup {K A B} `{Countable K} (f : B -> K)
    (l : list B) (m : gmap K A) (s : K) :
  foldl (fun m k => delete (f k) m) m l !! s
  = if decide (s ∈ f <$> l) then None else m !! s.
Proof.
  revert m. induction l as [|b l IH]; intros m; simpl.
  - destruct (decide (s ∈ [])) as [Hin|]; [|done].
    by apply elem_of_nil in Hin.
  - rewrite IH.
    change (f <$> b :: l) with (f b :: (f <$> l)).
    destruct (decide (s ∈ f <$> l)) as [Hin|Hnin].
    + rewrite decide_True; [done|]. by right.
    + destruct (decide (s = f b)) as [->|Hne].
      * rewrite lookup_delete_eq. rewrite decide_True; [done|]. by left.
      * rewrite lookup_delete_ne by done. rewrite decide_False; [done|].
        intros [?|?]%elem_of_cons; done.
Qed.

Lemma delInputs_lookup this result s :
  inputUTXOList (delInputs this result) !! s
  = if decide (s ∈ ToString <$> result) then None
    else inputUTXOList this !! s.
Proof. rewrite delInputs_eq. simpl. apply foldl_delete_lookup. Qed.

Lemma delInputs_fields this result :
  let this' := delInputs this result in
  txnCnt this' = txnCnt this /\ txnList this' = txnList this /\
  issueSummary this' = issueSummary this /\
  lockAssetList this' = lockAssetList this.
Proof. simpl. by rewrite delInputs_eq. Qed.

(** Releasing right after claiming free outputs gives the index back. *)
Lemma delInputs_addInputs this txn reference :
  (forall k, k ∈ reference -> inputUTXOList this !! ToString k = None) ->
  inputUTXOList (delInputs (addInputs this txn reference) reference)
  = inputUTXOList this.
Proof.
  intros Hfree. apply map_eq. intros s.
  rewrite delInputs_lookup, addInputs_lookup.
  destruct (decide (s ∈ ToString <$> reference)) as [Hin|Hnin].
  - apply list_elem_of_fmap in Hin as (k & -> & Hin). by rewrite Hfree.
  - by destruct (inputUTXOList this !! s).
Qed.

Lemma decrAll_fields this l :
  let this' := decrAll this l in
  txnCnt this' = txnCnt this /\ txnList this' = txnList this /\
  inputUTXOList this' = inputUTXOList this /\
  lockAssetList this' = lockAssetList this.
Proof.
  revert this. induction l as [|[k d] l IH]; intros this; simpl; [auto|].
  destruct (IH (decrAssetIssueAmountSummary this k d)) as (H1 & H2 & H3 & H4).
  destruct (decr_other_fields this k d) as (G1 & G2 & G3 & G4).
  unfold decrAll in *. simpl in *. repeat split; congruence.
Qed.

Lemma issuedIn_nonneg l a :
  (forall k d, (k, d) ∈ l -> amount d) -> 0 <= issuedIn l a.
Proof.
  induction l as [|[k d] l IH]; intros Hl; simpl; [lia|].
  assert (0 <= issuedIn l a).
  { apply IH. intros k' d' Hin. apply (Hl k' d'). by right. }
  assert (amount d) as [? ?] by (apply (Hl k d); by left).
  case_decide; lia.
Qed.

Lemma issuedIn_elem l a d :
  (forall k d, (k, d) ∈ l -> amount d) -> (a, d) ∈ l -> d <= issuedIn l a.
Proof.
  induction l as [|[k' d'] l IH]; intros Hl Hin.
  - by apply elem_of_nil in Hin.
  - assert (Hrest : forall k d, (k, d) ∈ l -> amount d).
    { intros k0 d0 Hin0. apply (Hl k0 d0). by right. }
    pose proof (issuedIn_nonneg l a Hrest).
    assert (amount d') as [? ?] by (apply (Hl k' d'); by left).
    simpl. apply elem_of_cons in Hin as [[= <- <-]|Hin].
    + rewrite decide_True by done. lia.
    + specialize (IH Hrest Hin). case_decide; lia.
Qed.

Lemma decr_amounts this k d :
  (forall a v, issueSummary this !! a = Some v -> amount v) -> amount d ->
  let this' := decrAssetIssueAmountSummary this k d in
  (forall a v, issueSummary this' !! a = Some v -> amount v) /\
  (forall a, getAssetIssueAmount this' a
     = Z.max (getAssetIssueAmount this a - (if decide (k = a) then d else 0))
             0).
Proof.
  intros Hthis [Hd0 Hd1]. simpl.
  destruct (issueSummary this !! k) as [old|] eqn:Hold.
  - destruct (Hthis k old Hold) as [Ho0 Ho1].
    rewrite (decr_unfold _ _ _ _ Hold). simpl.
    assert (Hsub : sub64 old d = old - d).
    { apply wrap64_small. unfold inFixed64. lia. }
    rewrite Hsub. split.
    + intros a v. destruct (decide (k = a)) as [<-|Hne].
      * rewrite lookup_insert_eq. intros [= <-]. unfold amount. lia.
      * rewrite lookup_insert_ne by done. apply Hthis.
    + intros a. unfold getAssetIssueAmount. simpl.
      destruct (decide (k = a)) as [<-|Hne].
      * by rewrite lookup_insert_eq, Hold.
      * rewrite lookup_insert_ne by done.
        destruct (issueSummary this !! a) as [v|] eqn:Ha; simpl; [|lia].
        destruct (Hthis a v Ha). lia.
  - rewrite decr_absent by done. split; [done|].
    intros a. unfold getAssetIssueAmount.
    destruct (decide (k = a)) as [<-|Hne].
    + rewrite Hold. simpl. lia.
    + destruct (issueSummary this !! a) as [v|] eqn:Ha; simpl; [|lia].
      destruct (Hthis a v Ha). lia.
Qed.

Lemma decrAll_amounts this l :
  (forall a v, issueSummary this !! a = Some v -> amount v) ->
  (forall k d, (k, d) ∈ l -> amount d) ->
  let this' := decrAll this l in
  (forall a v, issueSummary this' !! a = Some v -> amount v) /\
  (forall a, getAssetIssueAmount this' a
     = Z.max (getAssetIssueAmount this a - issuedIn l a) 0).
Proof.
  revert this. induction l as [|[k d] l IH]; intros this Hthis Hl; simpl.
  - split; [done|]. intros a. unfold getAssetIssueAmount.
    destruct (issueSummary this !! a) as [v|] eqn:Ha; simpl; [|lia].
    destruct (Hthis a v Ha). lia.
  - assert (Hd : amount d) by (apply (Hl k d); by left).
    assert (Hrest : forall k d, (k, d) ∈ l -> amount d).
    { intros k0 d0 Hin0. apply (Hl k0 d0). by right. }
    destruct (decr_amounts this k d Hthis Hd) as [Hthis1 Hget1].
    destruct (IH _ Hthis1 Hrest) as [Hfinal Hget]. split; [done|].
    intros a. unfold decrAll in *. simpl in *. rewrite Hget, Hget1.
    pose proof (issuedIn_nonneg l a Hrest). destruct Hd.
    case_decide; lia.
Qed.

Lemma cleanIssueSummary_fields this txs :
  let this' := cleanIssueSummary this txs in
  txnCnt this' = txnCnt this /\ txnList this' = txnList this /\
  inputUTXOList this' = inputUTXOList this /\
  lockAssetList this' = lockAssetList this.
Proof.
  revert this. induction txs as [|v txs IH]; intros this; simpl; [auto|].
  unfold cleanIssueSummary in *. simpl.
  match goal with |- context [foldl ?f ?a txs] => specialize (IH a) end.
  simpl in IH. destruct IH as (H1 & H2 & H3 & H4).
  case_decide; [|auto].
  destruct (decrAll_fields this (GetMergedAssetIDValueFromOutputs v))
    as (G1 & G2 & G3 & G4).
  simpl in *. rewrite H1, H2, H3, H4. auto.
Qed.

Lemma cleanIssueSummary_amounts this txs :
  (forall a v, issueSummary this !! a = Some v -> amount v) ->
  (forall txn k d, txn ∈ txs -> TxType txn = IssueAsset ->
     (k, d) ∈ GetMergedAssetIDValueFromOutputs txn -> amount d) ->
  let this' := cleanIssueSummary this txs in
  (forall a v, issueSummary this' !! a = Some v -> amount v) /\
  (forall a, getAssetIssueAmount this' a
     = Z.max (getAssetIssueAmount this a - blockIssued txs a) 0) /\
  (forall a, 0 <= blockIssued txs a).
Proof.
  revert this. induction txs as [|v txs IH]; intros this Hthis Htxs; simpl.
  - split; [done|]. split; [|done]. intros a. unfold getAssetIssueAmount.
    destruct (issueSummary this !! a) as [x|] eqn:Ha; simpl; [|lia].
    destruct (Hthis a x Ha). lia.
  - assert (Hrest : forall txn k d, txn ∈ txs -> TxType txn = IssueAsset ->
              (k, d) ∈ GetMergedAssetIDValueFromOutputs txn -> amount d).
    { intros txn k d Hin. apply Htxs. by right. }
    unfold cleanIssueSummary in *. simpl.
    destruct (decide (TxType v = IssueAsset)) as [Hty|Hty].
    + assert (Hv : forall k d,
                (k, d) ∈ GetMergedAssetIDValueFromOutputs v -> amount d).
      { intros k d. apply Htxs; [by left|done]. }
      destruct (decrAll_amounts this _ Hthis Hv) as [Hthis1 Hget1].
      destruct (IH _ Hthis1 Hrest) as (Hfinal & Hget & Hnn).
      split; [done|]. split.
      * intros a. simpl in *. rewrite Hget, Hget1.
        pose proof (issuedIn_nonneg _ a Hv). pose proof (Hnn a). lia.
      * intros a. pose proof (issuedIn_nonneg _ a Hv). pose proof (Hnn a). lia.
    + destruct (IH _ Hthis Hrest) as (Hfinal & Hget & Hnn). done.
Qed.

Lemma blockIssued_elem txs txn k d :
  (forall txn k d, txn ∈ txs -> TxType txn = IssueAsset ->
     (k, d) ∈ GetMergedAssetIDValueFromOutputs txn -> amount d) ->
  txn ∈ txs -> TxType txn = IssueAsset ->
  (k, d) ∈ GetMergedAssetIDValueFromOutputs txn ->
  d <= blockIssued txs k.
Proof.
  induction txs as [|v txs IH]; intros Htxs Hin Hty Hkd.
  - by apply elem_of_nil in Hin.
  - assert (Hrest : forall txn k d, txn ∈ txs -> TxType txn = IssueAsset ->
              (k, d) ∈ GetMergedAssetIDValueFromOutputs txn -> amount d).
    { intros txn' k' d' Hin'. apply Htxs. by right. }
    assert (Hnn : 0 <= blockIssued txs k).
    { clear -Hrest. induction txs as [|w txs IH]; simpl; [lia|].
      assert (0 <= blockIssued txs k).
      { apply IH. intros txn' k' d' Hin'. apply Hrest. by right. }
      case_decide as Hw; [|done].
      assert (0 <= issuedIn (GetMergedAssetIDValueFromOutputs w) k); [|lia].
      apply issuedIn_nonneg. intros k' d'. apply Hrest; [by left|done]. }
    simpl. apply elem_of_cons in Hin as [<-|Hin].
    + rewrite decide_True by done.
      assert (d <= issuedIn (GetMergedAssetIDValueFromOutputs txn) k); [|lia].
      apply issuedIn_elem; [|done].
      intros k' d'. apply Htxs; [by left|done].
    + specialize (IH Hrest Hin Hty Hkd). case_decide as Hv; [|done].
      assert (0 <= issuedIn (GetMergedAssetIDValueFromOutputs v) k); [|lia].
      apply issuedIn_nonneg. intros k' d'. apply Htxs; [by left|done].
Qed.

(** ** Reconciliation with a committed block *)

Lemma foldl_shrinks {K A B} `{Countable K}
    (g : gmap K A -> B -> gmap K A) (l : list B) (m : gmap K A) (s : K) :
  (forall m b, m !! s = None -> g m b !! s = None) ->
  m !! s = None -> foldl g m l !! s = None.
Proof.
  intros Hg. revert m. induction l as [|b l IH]; intros m Hm; simpl; [done|].
  apply IH. by apply Hg.
Qed.

Lemma foldl_kills {K A B} `{Countable K}
    (g : gmap K A -> B -> gmap K A) (l : list B) (m : gmap K A) (s : K)
    (b : B) :
  (forall m b, m !! s = None -> g m b !! s = None) ->
  b ∈ l -> (forall m, g m b !! s = None) ->
  foldl g m l !! s = None.
Proof.
  intros Hg Hin Hb. revert m.
  induction l as [|b' l IH]; intros m; [by apply elem_of_nil in Hin|].
  simpl. apply elem_of_cons in Hin as [<-|Hin].
  - by apply foldl_shrinks.
  - by apply IH.
Qed.

Lemma cleanTransactionList_eq this txns :
  (cleanTransactionList this txns).1
  = set_txnList
      (fun m => foldl (fun m txn => if decide (TxType txn = BookKeeping)
                                    then m else delete (Hash txn) m) m txns)
      this.
Proof.
  unfold cleanTransactionList. generalize (Z.of_nat (length txns)) 0.
  revert this. induction txns as [|txn txns IH]; intros this n c; simpl.
  - by destruct this.
  - case_decide; [by rewrite IH|].
    pose proof (deltxnList_eq this txn) as Hdel.
    destruct (deltxnList this txn) as [this1 []]; simpl in Hdel; subst this1;
      by rewrite IH.
Qed.

Lemma cleanTransactionList_absent this txns txn :
  txn ∈ txns -> TxType txn ≠ BookKeeping ->
  txnList (cleanTransactionList this txns).1 !! Hash txn = None.
Proof.
  intros Hin Hty. rewrite cleanTransactionList_eq. simpl.
  apply (foldl_kills _ _ _ _ txn); [|done|].
  - intros m b Hm. case_decide; [done|].
    rewrite lookup_delete. by case_decide.
  - intros m. rewrite decide_False by done. apply lookup_delete_eq.
Qed.

Lemma cleanUTXOList_eq this txs :
  cleanUTXOList this txs
  = set_inputUTXOList
      (fun m => foldl (fun m txn =>
                         foldl (fun m k => delete (ToString k) m) m
                               (default [] (GetReference txn))) m txs)
      this.
Proof.
  unfold cleanUTXOList. revert this.
  induction txs as [|txn txs IH]; intros this; simpl.
  - by destruct this.
  - by rewrite IH, delInputs_eq.
Qed.

Lemma cleanUTXOList_released this txs txn reference k :
  txn ∈ txs -> GetReference txn = Some reference -> k ∈ reference ->
  inputUTXOList (cleanUTXOList this txs) !! ToString k = None.
Proof.
  intros Hin Href Hk. rewrite cleanUTXOList_eq. simpl.
  apply (foldl_kills _ _ _ _ txn); [|done|].
  - intros m b Hm. rewrite foldl_delete_lookup. by case_decide.
  - intros m. rewrite Href. simpl. rewrite foldl_delete_lookup.
    rewrite decide_True; [done|]. by apply list_elem_of_fmap_2.
Qed.

Lemma cleanLockedAssetList_fields this txs :
  let this' := cleanLockedAssetList this txs in
  txnCnt this' = txnCnt this /\ txnList this' = txnList this /\
  issueSummary this' = issueSummary this /\
  inputUTXOList this' = inputUTXOList this.
Proof.
  revert this. induction txs as [|txn txs IH]; intros this; simpl; [auto|].
  unfold cleanLockedAssetList in *. simpl.
  match goal with |- context [foldl ?f ?a txs] => specialize (IH a) end.
  destruct (lockAssetPayload txn); exact IH.
Qed.

Lemma cleanLockedAssetList_shrinks this txs str :
  str ∉ lockAssetList this ->
  str ∉ lockAssetList (cleanLockedAssetList this txs).
Proof.
  revert this. induction txs as [|txn txs IH]; intros this Hstr; [done|].
  unfold cleanLockedAssetList in *. simpl. apply IH.
  destruct (lockAssetPayload txn); simpl; [|done].
  by intros [? _]%elem_of_difference.
Qed.

Lemma cleanLockedAssetList_unlocked this txs txn str :
  txn ∈ txs -> lockAssetPayload txn = Some str ->
  str ∉ lockAssetList (cleanLockedAssetList this txs).
Proof.
  intros Hin Hstr. revert this.
  induction txs as [|txn' txs IH]; intros this; [by apply elem_of_nil in Hin|].
  apply elem_of_cons in Hin as [<-|Hin].
  - unfold cleanLockedAssetList. simpl. rewrite Hstr.
    apply cleanLockedAssetList_shrinks. simpl.
    intros [_ Hne]%elem_of_difference. apply Hne. by apply elem_of_singleton.
  - unfold cleanLockedAssetList in *. simpl. by apply IH.
Qed.

(** C6.  Let the stored summaries and the amounts issued by the block be
    amounts (not negative, within 64 bits).  After
    [CleanSubmittedTransactions], every transaction of the block that is not
    a [BookKeeping] one is absent from the pending set, every output it
    references is absent from the claimed-input index, and its lock
    identifier, if it has one, is absent from the guard.  The summary of every
    asset is the old one minus what the block's issuing transactions issue of
    it, floored at zero; in particular it is at most the old one minus the
    amount of any single issuing transaction of the block, floored at zero. *)
Theorem CleanSubmittedTransactions_reconciles (this : TXNPool)
    (block : list Transaction) :
  (forall a v, issueSummary this !! a = Some v -> amount v) ->
  (forall txn k d, txn ∈ block -> TxType txn = IssueAsset ->
     (k, d) ∈ GetMergedAssetIDValueFromOutputs txn -> amount d) ->
  let this' := CleanSubmittedTransactions this block in
  (forall txn, txn ∈ block -> TxType txn ≠ BookKeeping ->
     txnList this' !! Hash txn = None /\
     (forall reference k, GetReference txn = Some reference ->
        k ∈ reference -> inputUTXOList this' !! ToString k = None) /\
     (forall str, lockAssetPayload txn = Some str ->
        str ∉ lockAssetList this') /\
     (forall k d, TxType txn = IssueAsset ->
        (k, d) ∈ GetMergedAssetIDValueFromOutputs txn ->
        getAssetIssueAmount this' k
        <= Z.max (getAssetIssueAmount this k - d) 0)) /\
  (forall a, getAssetIssueAmount this' a
     = Z.max (getAssetIssueAmount this a - blockIssued block a) 0).
Proof.
  intros Hthis Hblock this'. subst this'. unfold CleanSubmittedTransactions.
  set (this1 := (cleanTransactionList this block).1).
  set (this2 := cleanUTXOList this1 block).
  set (this3 := cleanLockedAssetList this2 block).
  destruct (cleanIssueSummary_fields this3 block) as (_ & Htl4 & Hin4 & Hlk4).
  destruct (cleanLockedAssetList_fields this2 block)
    as (_ & Htl3 & Hsum3 & Hin3).
  assert (Htl2 : txnList this2 = txnList this1)
    by (subst this2; by rewrite cleanUTXOList_eq).
  assert (Hsum2 : issueSummary this2 = issueSummary this1)
    by (subst this2; by rewrite cleanUTXOList_eq).
  assert (Hsum1 : issueSummary this1 = issueSummary this)
    by (subst this1; by rewrite cleanTransactionList_eq).
  assert (Hsum : issueSummary this3 = issueSummary this)
    by (fold this3 in Hsum3; congruence).
  assert (Hget3 : forall a, getAssetIssueAmount this3 a
                            = getAssetIssueAmount this a).
  { intros a. unfold getAssetIssueAmount. by rewrite Hsum. }
  destruct (cleanIssueSummary_amounts this3 block) as (_ & Hget & Hnn);
    [by rewrite Hsum|done|].
  simpl in *. split.
  - intros txn Hin Hty. repeat split.
    + rewrite Htl4. fold this3 in Htl3. rewrite Htl3, Htl2.
      by apply cleanTransactionList_absent.
    + intros reference k Href Hk. rewrite Hin4. fold this3 in Hin3.
      rewrite Hin3. by apply (cleanUTXOList_released this1 block txn reference).
    + intros str Hstr. rewrite Hlk4.
      by apply (cleanLockedAssetList_unlocked this2 block txn).
    + intros k d Hissue Hkd. rewrite Hget, Hget3.
      pose proof (blockIssued_elem block txn k d Hblock Hin Hissue Hkd). lia.
  - intros a. by rewrite Hget, Hget3.
Qed.

(** ** Single-transaction removal *)

Lemma removeTransaction_txnList this txn :
  txnList (removeTransaction this txn) = delete (Hash txn) (txnList this).
Proof.
  unfold removeTransaction. rewrite deltxnList_eq.
  destruct (GetReference txn) as [result|]; [|done].
  set (this1 := set_txnList (delete (Hash txn)) this).
  destruct (delInputs_fields this1 result) as (_ & Htl & _).
  case_decide; [|done].
  destruct (decrAll_fields (delInputs this1 result)
              (GetMergedAssetIDValueFromOutputs txn)) as (_ & Htl' & _).
  simpl in *. by rewrite Htl', Htl.
Qed.

(** [removeTransaction] has no statement on [lockAssetList]. *)
Lemma removeTransaction_lockAssetList this txn :
  lockAssetList (removeTransaction this txn) = lockAssetList this.
Proof.
  unfold removeTransaction. rewrite deltxnList_eq.
  destruct (GetReference txn) as [result|]; [|done].
  set (this1 := set_txnList (delete (Hash txn)) this).
  destruct (delInputs_fields this1 result) as (_ & _ & _ & Hlk).
  case_decide; [|done].
  destruct (decrAll_fields (delInputs this1 result)
              (GetMergedAssetIDValueFromOutputs txn)) as (_ & _ & _ & Hlk').
  simpl in *. by rewrite Hlk', Hlk.
Qed.

Lemma removeTransaction_released this txn reference k :
  GetReference txn = Some reference -> k ∈ reference ->
  inputUTXOList (removeTransaction this txn) !! ToString k = None.
Proof.
  intros Href Hk. unfold removeTransaction. rewrite deltxnList_eq, Href.
  set (this1 := set_txnList (delete (Hash txn)) this).
  assert (Hdel : inputUTXOList (delInputs this1 reference) !! ToString k
                 = None).
  { rewrite delInputs_lookup. rewrite decide_True; [done|].
    by apply list_elem_of_fmap_2. }
  case_decide; [|done].
  destruct (decrAll_fields (delInputs this1 reference)
              (GetMergedAssetIDValueFromOutputs txn)) as (_ & _ & Hin & _).
  simpl in *. by rewrite Hin.
Qed.

Lemma removeTransaction_inputUTXOList this txn reference :
  GetReference txn = Some reference ->
  inputUTXOList (removeTransaction this txn)
  = inputUTXOList (delInputs this reference).
Proof.
  intros Href. unfold removeTransaction. rewrite deltxnList_eq, Href.
  set (this1 := set_txnList (delete (Hash txn)) this).
  assert (Hsame : inputUTXOList (delInputs this1 reference)
                  = inputUTXOList (delInputs this reference))
    by (by rewrite !delInputs_eq).
  case_decide; [|done].
  destruct (decrAll_fields (delInputs this1 reference)
              (GetMergedAssetIDValueFromOutputs txn)) as (_ & _ & Hin & _).
  simpl in *. by rewrite Hin.
Qed.

Lemma removeTransaction_summary this txn reference :
  GetReference txn = Some reference -> TxType txn = IssueAsset ->
  issueSummary (removeTransaction this txn)
  = issueSummary (decrAll this (GetMergedAssetIDValueFromOutputs txn)).
Proof.
  intros Href Hty. unfold removeTransaction. rewrite deltxnList_eq, Href.
  rewrite decide_True by done. rewrite delInputs_eq.
  generalize (GetMergedAssetIDValueFromOutputs txn). intros l.
  match goal with |- issueSummary (decrAll ?a l) = _ =>
    assert (Hs : issueSummary a = issueSummary this) by done;
    revert Hs; generalize a end.
  revert this. induction l as [|[k d] l IH]; intros this that Hs; [done|].
  unfold decrAll in *. simpl. apply IH.
  unfold decrAssetIssueAmountSummary. rewrite Hs.
  destruct (issueSummary this !! k); simpl; by rewrite ?Hs.
Qed.

(** ** Admitting a transaction again *)

Lemma verifyTransactionWithTxnPool_txnList this txn :
  let r := verifyTransactionWithTxnPool this txn in
  (r.2 ≠ ErrSummaryAsset /\ txnList r.1 = txnList this) \/
  (r.2 = ErrSummaryAsset /\
   txnList r.1 = delete (Hash txn) (txnList this)).
Proof.
  unfold verifyTransactionWithTxnPool.
  destruct (apendToUTXOPool this txn) as [this1 [err|]] eqn:Happ; simpl.
  { apply apendToUTXOPool_error in Happ. subst. by left. }
  apply apendToUTXOPool_ok in Happ as (reference & _ & _ & ->).
  destruct (addInputs_fields this txn reference) as (_ & Htl1 & _).
  pose proof (checkDuplicateLockAsset_fields
                (addInputs this txn reference) txn) as (_ & Htl2 & _).
  destruct (checkDuplicateLockAsset _ txn) as [this2 [err|]]; simpl in *.
  { left. split; [done|]. congruence. }
  pose proof (summaryAssetIssueAmount_fields this2 txn) as (_ & Htl3 & _).
  destruct (summaryAssetIssueAmount this2 txn) as [this3 []]; simpl in *.
  - left. split; [done|]. congruence.
  - right. split; [done|]. rewrite removeTransaction_txnList. congruence.
Qed.

Lemma verifyTransactionWithTxnPool_ok this txn this1 :
  verifyTransactionWithTxnPool this txn = (this1, ErrNoError) ->
  exists reference, GetReference txn = Some reference /\
    (forall k, k ∈ reference -> inputUTXOList this !! ToString k = None) /\
    inputUTXOList this1 = inputUTXOList (addInputs this txn reference) /\
    txnList this1 = txnList this.
Proof.
  unfold verifyTransactionWithTxnPool.
  destruct (apendToUTXOPool this txn) as [p1 [err|]] eqn:Happ; [done|].
  apply apendToUTXOPool_ok in Happ as (reference & Href & Hfree & ->).
  destruct (addInputs_fields this txn reference) as (_ & Htl1 & _).
  pose proof (checkDuplicateLockAsset_fields
                (addInputs this txn reference) txn) as (_ & Htl2 & _ & Hin2).
  destruct (checkDuplicateLockAsset _ txn) as [p2 [err|]]; [done|].
  pose proof (summaryAssetIssueAmount_fields p2 txn) as (_ & Htl3 & Hin3 & _).
  destruct (summaryAssetIssueAmount p2 txn) as [p3 []]; [|done].
  simpl in *. intros [= <-]. exists reference.
  split; [done|]. split; [done|]. split; congruence.
Qed.

Lemma AppendTxnPool_ok this txn poolVerify this1 :
  AppendTxnPool this txn poolVerify = (this1, ErrNoError) ->
  VerifyTransaction txn = ErrNoError /\
  VerifyTransactionWithLedger txn = ErrNoError /\
  exists p, this1 = (addtxnList p txn).1 /\
    if poolVerify then verifyTransactionWithTxnPool this txn = (p, ErrNoError)
    else p = this.
Proof.
  unfold AppendTxnPool.
  destruct (VerifyTransaction txn); try done.
  destruct (VerifyTransactionWithLedger txn); try done.
  destruct poolVerify.
  - destruct (verifyTransactionWithTxnPool this txn) as [p []]; try done.
    intros [= <-]. eauto.
  - intros [= <-]. eauto.
Qed.

Lemma addtxnList_member this txn :
  is_Some (txnList (addtxnList this txn).1 !! Hash txn) /\
  inputUTXOList (addtxnList this txn).1 = inputUTXOList this.
Proof.
  unfold addtxnList. destruct (txnList this !! Hash txn) eqn:Hl; simpl.
  - by rewrite Hl.
  - by rewrite lookup_insert_eq.
Qed.

Lemma addtxnList_present this txn :
  is_Some (txnList this !! Hash txn) -> (addtxnList this txn).1 = this.
Proof. intros [t Ht]. unfold addtxnList. by rewrite Ht. Qed.

(** C7, as the code has it.  Let a transaction be admitted successfully and
    be admitted again.  The pending set never grows; whenever the second call
    reports success the pending set is the one before it; the second call does
    report success, and leaves the whole pool as it was, when it skips the
    pool checks; and when both calls run the pool checks and the transaction
    references an output, the second call answers [ErrDoubleSpend] (the
    output is claimed, by the transaction itself) and leaves the pool as it
    was. *)
Theorem AppendTxnPool_again (this this1 : TXNPool) (txn : Transaction)
    (poolVerify1 poolVerify2 : bool) :
  AppendTxnPool this txn poolVerify1 = (this1, ErrNoError) ->
  let r := AppendTxnPool this1 txn poolVerify2 in
  (size (txnList r.1) <= size (txnList this1))%nat /\
  (r.2 = ErrNoError -> txnList r.1 = txnList this1) /\
  (poolVerify2 = false -> r = (this1, ErrNoError)) /\
  (poolVerify1 = true -> poolVerify2 = true ->
   (exists k reference, GetReference txn = Some (k :: reference)) ->
   r = (this1, ErrDoubleSpend)).
Proof.
  intros Hfirst r.
  apply AppendTxnPool_ok in Hfirst as (Hv & Hvl & p & -> & Hp).
  destruct (addtxnList_member p txn) as [Hmem Hin].
  set (this1 := (addtxnList p txn).1) in *.
  assert (Hr : r = if poolVerify2
                   then match verifyTransactionWithTxnPool this1 txn with
                        | (q, ErrNoError) => ((addtxnList q txn).1, ErrNoError)
                        | (q, errCode) => (q, errCode)
                        end
                   else (this1, ErrNoError)).
  { subst r. unfold AppendTxnPool. rewrite Hv, Hvl.
    destruct poolVerify2; [done|]. by rewrite addtxnList_present. }
  pose proof (verifyTransactionWithTxnPool_txnList this1 txn) as Htl.
  repeat split.
  - rewrite Hr. destruct poolVerify2; [|done].
    destruct (verifyTransactionWithTxnPool this1 txn) as [q code].
    simpl in Htl. destruct Htl as [[Hcode Htl]|[-> Htl]].
    + assert (size (txnList q) <= size (txnList this1))%nat by (by rewrite Htl).
      destruct code; try done. simpl.
      rewrite addtxnList_present; [done|]. by rewrite Htl.
    + simpl. rewrite Htl. rewrite map_size_delete.
      destruct (txnList this1 !! Hash txn); [apply Nat.le_pred_l|done].
  - rewrite Hr. destruct poolVerify2; [|done].
    destruct (verifyTransactionWithTxnPool this1 txn) as [q code].
    simpl in Htl. destruct Htl as [[Hcode Htl]|[-> Htl]]; [|done].
    destruct code; try done. simpl. intros _.
    rewrite addtxnList_present; [done|]. by rewrite Htl.
  - intros ->. exact Hr.
  - intros -> -> (k & reference & Href). rewrite Hr.
    apply verifyTransactionWithTxnPool_ok in Hp
      as (reference' & Href' & Hfree & Hinp & _).
    rewrite Href in Href'. injection Href' as <-.
    assert (Hk : is_Some (inputUTXOList this1 !! ToString k)).
    { rewrite Hin, Hinp, addInputs_lookup. rewrite Hfree by left.
      rewrite decide_True; [done|]. apply list_elem_of_fmap_2. by left. }
    unfold verifyTransactionWithTxnPool.
    destruct (apendToUTXOPool_claimed this1 txn _ k Href) as [err ->];
      [by left|done|done].
Qed.

(** ** Candidates for the next block *)

Lemma rangeCopy_take order num count txnMap :
  num < count ->
  rangeCopy order num count txnMap
  = foldl (fun m kv => <[kv.1 := kv.2]> m) txnMap
          (take (Z.to_nat (count - num)) order).
Proof.
  revert num txnMap.
  induction order as [|[txnId tx] order IH]; intros num txnMap Hlt.
  - by rewrite take_nil.
  - simpl. replace (Z.to_nat (count - num))
      with (S (Z.to_nat (count - (num + 1)))) by lia.
    simpl. destruct (Z.geb_spec (num + 1) count) as [Hge|Hlt'].
    + replace (Z.to_nat (count - (num + 1))) with O by lia. by rewrite take_0.
    + by rewrite IH.
Qed.

Lemma foldl_insert_list_to_map (l : list (Uint256 * Transaction))
    (m : gmap Uint256 Transaction) :
  NoDup l.*1 ->
  foldl (fun m kv => <[kv.1 := kv.2]> m) m l = list_to_map l ∪ m.
Proof.
  revert m. induction l as [|[k v] l IH]; intros m Hnd.
  - simpl. by rewrite (left_id_L ∅ (∪)).
  - rewrite fmap_cons in Hnd. apply NoDup_cons in Hnd as [Hk Hnd].
    simpl. rewrite IH by done.
    rewrite <- insert_union_l. symmetry. apply insert_union_r.
    by apply not_elem_of_list_to_map_1.
Qed.

Lemma NoDup_fst_take {A B} (l : list (A * B)) n :
  NoDup l.*1 -> NoDup (take n l).*1.
Proof.
  intros Hnd. rewrite fmap_take. eapply sublist_NoDup; [done|].
  apply sublist_take.
Qed.

(** The loop of [GetTxnPool] copies the first [count] entries it visits, all
    of them when [count] is the size of the pending set. *)
Lemma GetTxnPool_take this order byCount :
  NoDup order.*1 -> length order = size (txnList this) ->
  GetTxnPool this order byCount
  = list_to_map
      (take (if (MaxTxInBlock <=? 0) || negb byCount then length order
             else Z.to_nat MaxTxInBlock) order).
Proof.
  intros Hnd Hlen. unfold GetTxnPool.
  set (len := Z.of_nat (size (txnList this))).
  set (by' := if MaxTxInBlock <=? 0 then false else byCount).
  set (count := if (len <? MaxTxInBlock) || negb by' then len
                else MaxTxInBlock).
  assert (Hcount : count = Z.min len (if (MaxTxInBlock <=? 0) || negb byCount
                                      then len else MaxTxInBlock)).
  { subst count by'.
    destruct (Z.leb_spec MaxTxInBlock 0), (Z.ltb_spec len MaxTxInBlock),
      byCount; simpl; lia. }
  assert (Htake : take (Z.to_nat count) order
                  = take (if (MaxTxInBlock <=? 0) || negb byCount
                          then length order else Z.to_nat MaxTxInBlock) order).
  { rewrite Hcount. destruct ((MaxTxInBlock <=? 0) || negb byCount).
    - f_equal. lia.
    - destruct (Z.le_ge_cases len MaxTxInBlock).
      + rewrite Z.min_l by done. rewrite !take_ge; [done|lia|lia].
      + by rewrite Z.min_r. }
  destruct order as [|kv order].
  - simpl. by rewrite take_nil.
  - assert (0 < count).
    { rewrite Hcount. simpl in Hlen.
      destruct (Z.leb_spec MaxTxInBlock 0), byCount; simpl; lia. }
    rewrite rangeCopy_take by lia. rewrite Z.sub_0_r, Htake.
    rewrite foldl_insert_list_to_map by (by apply NoDup_fst_take).
    by rewrite (right_id_L ∅ (∪)).
Qed.

(** C8.  Let [order] be the order in which the loop visits the pending set,
    whichever it is.  With a configured maximum of zero or less, [GetTxnPool]
    returns exactly the pending set, whatever [byCount] is.  With a positive
    maximum and [byCount] set, it returns the entries visited first, up to the
    maximum: they are pending transactions, and there are as many of them as
    the maximum allows (the whole set when it is smaller). *)
Theorem GetTxnPool_limit (this : TXNPool)
    (order : list (Uint256 * Transaction)) (byCount : bool) :
  order ≡ₚ map_to_list (txnList this) ->
  (MaxTxInBlock <= 0 -> GetTxnPool this order byCount = txnList this) /\
  (0 < MaxTxInBlock -> byCount = true ->
     GetTxnPool this order byCount
       = list_to_map (take (Z.to_nat MaxTxInBlock) order) /\
     GetTxnPool this order byCount ⊆ txnList this /\
     Z.of_nat (size (GetTxnPool this order byCount))
       = Z.min (GetTransactionCount this) MaxTxInBlock /\
     Z.of_nat (size (GetTxnPool this order byCount)) <= MaxTxInBlock).
Proof.
  intros Hperm.
  assert (Hnd : NoDup order.*1).
  { rewrite Hperm. apply NoDup_fst_map_to_list. }
  assert (Hlen : length order = size (txnList this)).
  { rewrite Hperm. apply length_map_to_list. }
  assert (Hall : list_to_map order = txnList this).
  { rewrite (list_to_map_proper order (map_to_list (txnList this))) by done.
    apply list_to_map_to_list. }
  rewrite (GetTxnPool_take this order byCount Hnd Hlen). split.
  - intros Hmax. destruct (Z.leb_spec MaxTxInBlock 0); [|lia]. simpl.
    by rewrite firstn_all.
  - intros Hmax ->. destruct (Z.leb_spec MaxTxInBlock 0); [lia|]. simpl.
    set (n := Z.to_nat MaxTxInBlock).
    assert (Hsize : size (list_to_map (take n order)
                            : gmap Uint256 Transaction)
                    = length (take n order)).
    { apply map_size_list_to_map. by apply NoDup_fst_take. }
    split; [done|]. split; [|split].
    + rewrite <- Hall. apply map_subseteq_spec. intros k v Hkv.
      apply elem_of_list_to_map_2 in Hkv.
      apply elem_of_list_to_map_1; [done|].
      eapply elem_of_sublist; [done|apply sublist_take].
    + rewrite Hsize, length_take. unfold GetTransactionCount. lia.
    + rewrite Hsize, length_take. lia.
Qed.

(** ** What a rejection leaves behind *)

(** A rejection by the duplicate-lock check returns the pool as the
    double-spend check left it: the claims of the rejected transaction are
    in the index. *)
Lemma verifyTransactionWithTxnPool_duplicate_lock this txn this' :
  verifyTransactionWithTxnPool this txn = (this', ErrDuplicateLockAsset) ->
  exists reference str,
    GetReference txn = Some reference /\
    lockAssetPayload txn = Some str /\ str ∈ lockAssetList this /\
    this' = addInputs this txn reference.
Proof.
  unfold verifyTransactionWithTxnPool.
  destruct (apendToUTXOPool this txn) as [p1 [err|]] eqn:Happ; [done|].
  apply apendToUTXOPool_ok in Happ as (reference & Href & _ & ->).
  destruct (addInputs_fields this txn reference) as (_ & _ & _ & Hlk).
  unfold checkDuplicateLockAsset.
  destruct (lockAssetPayload txn) as [str|] eqn:Hstr.
  - case_decide as Hin.
    + intros [= <-]. exists reference, str. by rewrite <- Hlk.
    + by destruct (summaryAssetIssueAmount _ txn) as [p3 []].
  - by destruct (summaryAssetIssueAmount _ txn) as [p3 []].
Qed.

Lemma delInputs_inputUTXOList this that result :
  inputUTXOList this = inputUTXOList that ->
  inputUTXOList (delInputs this result)
  = inputUTXOList (delInputs that result).
Proof.
  intros Heq. apply map_eq. intros s. by rewrite !delInputs_lookup, Heq.
Qed.

(** A rejection by the issuance check gives back the claimed-input index and
    the guard of before the call; the pending set loses the hash of the
    transaction, had it been there. *)
Lemma verifyTransactionWithTxnPool_summary_rollback this txn this' :
  verifyTransactionWithTxnPool this txn = (this', ErrSummaryAsset) ->
  TxType txn = IssueAsset /\
  inputUTXOList this' = inputUTXOList this /\
  lockAssetList this' = lockAssetList this /\
  txnList this' = delete (Hash txn) (txnList this).
Proof.
  unfold verifyTransactionWithTxnPool.
  destruct (apendToUTXOPool this txn) as [p1 [err|]] eqn:Happ; [done|].
  apply apendToUTXOPool_ok in Happ as (reference & Href & Hfree & ->).
  destruct (addInputs_fields this txn reference) as (_ & Htl1 & _ & Hlk1).
  pose proof (checkDuplicateLockAsset_fields
                (addInputs this txn reference) txn) as (_ & Htl2 & _ & Hin2).
  destruct (checkDuplicateLockAsset _ txn) as [p2 [err|]] eqn:Hchk; [done|].
  pose proof (summaryAssetIssueAmount_fields p2 txn)
    as (_ & Htl3 & Hin3 & Hlk3).
  destruct (summaryAssetIssueAmount p2 txn) as [p3 []] eqn:Hsum; [done|].
  simpl in *. intros [= <-].
  assert (Hty : TxType txn = IssueAsset).
  { unfold summaryAssetIssueAmount in Hsum. by case_decide. }
  assert (Hlock : lockAssetPayload txn = None).
  { unfold lockAssetPayload. destruct txn as [ty pl h]. simpl in *. by subst. }
  unfold checkDuplicateLockAsset in Hchk. rewrite Hlock in Hchk.
  injection Hchk as <-.
  split; [done|]. split; [|split].
  - rewrite (removeTransaction_inputUTXOList _ _ _ Href).
    rewrite (delInputs_inputUTXOList p3 (addInputs this txn reference))
      by done.
    by apply delInputs_addInputs.
  - rewrite removeTransaction_lockAssetList. congruence.
  - rewrite removeTransaction_txnList. congruence.
Qed.

(** ** Goroutines *)

(** For a transaction that neither locks nor issues, the verification is the
    double-spend check and nothing else. *)
Lemma verifyTransactionWithTxnPool_transfer this txn :
  TxType txn ≠ LockAsset -> TxType txn ≠ IssueAsset ->
  verifyTransactionWithTxnPool this txn
  = match apendToUTXOPool this txn with
    | (this, Some _) => (this, ErrDoubleSpend)
    | (this, None) => (this, ErrNoError)
    end.
Proof.
  intros Hlock Hissue. unfold verifyTransactionWithTxnPool.
  destruct (apendToUTXOPool this txn) as [p [err|]]; [done|].
  assert (Hpay : lockAssetPayload txn = None).
  { unfold lockAssetPayload. destruct txn as [[] pl h]; simpl in *; done. }
  unfold checkDuplicateLockAsset, summaryAssetIssueAmount.
  rewrite Hpay. by rewrite decide_False.
Qed.

Lemma alone_returned n this err :
  alone n this (Returned err) = (this, Returned err).
Proof. induction n as [|n IH]; [done|]. simpl. exact IH. Qed.

Lemma alone_app n m this g :
  alone (n + m) this g
  = let '(this, g) := alone n this g in alone m this g.
Proof.
  revert this g. induction n as [|n IH]; intros this g; simpl; [done|].
  destruct (step this g) as [this1 g1]. apply IH.
Qed.

Lemma alone_check this txn reference inputs :
  alone (S (length reference)) this (InCheck txn reference inputs)
  = match checkInputs this reference inputs with
    | inl err => (this, Returned (Some err))
    | inr inputs => (this, InAdd txn inputs)
    end.
Proof.
  revert inputs. induction reference as [|k reference IH]; intros inputs.
  - done.
  - change (alone (S (length (k :: reference))) this
              (InCheck txn (k :: reference) inputs))
      with (let '(this, g) := step this (InCheck txn (k :: reference) inputs)
            in alone (S (length reference)) this g).
    simpl step. simpl checkInputs.
    destruct (getInputUTXOList this k); [|apply IH].
    apply alone_returned.
Qed.

Lemma alone_add this txn inputs :
  alone (S (length inputs)) this (InAdd txn inputs)
  = (addInputs this txn inputs, Returned None).
Proof.
  revert this. induction inputs as [|v inputs IH]; intros this; [done|].
  change (alone (S (length (v :: inputs))) this (InAdd txn (v :: inputs)))
    with (alone (S (length inputs)) (addInputUTXOList this txn v).1
            (InAdd txn inputs)).
  by rewrite IH.
Qed.

(** A goroutine that runs alone computes [apendToUTXOPool]. *)
Lemma alone_apendToUTXOPool this txn :
  exists n, alone n this (enter txn)
            = let '(this, err) := apendToUTXOPool this txn in
              (this, Returned err).
Proof.
  unfold enter, apendToUTXOPool.
  destruct (GetReference txn) as [reference|]; [|by exists O].
  exists (S (length reference) + S (length reference))%nat.
  rewrite alone_app, alone_check.
  destruct (checkInputs this reference []) as [err|inputs] eqn:Hchk.
  - apply alone_returned.
  - assert (Hfree : forall k, k ∈ reference ->
                      inputUTXOList this !! ToString k = None).
    { intros k Hin.
      destruct (inputUTXOList this !! ToString k) as [c|] eqn:Hk; [|done].
      destruct (checkInputs_inl this reference [] k Hin) as [err Herr];
        [eauto|congruence]. }
    rewrite checkInputs_inr in Hchk by done. injection Hchk as <-.
    apply alone_add.
Qed.

Lemma addInputUTXOList_free this tx input :
  inputUTXOList this !! ToString input = None ->
  addInputUTXOList this tx input
  = (set_inputUTXOList <[ToString input := tx]> this, true).
Proof. intros Hfree. unfold addInputUTXOList. by rewrite Hfree. Qed.

Lemma addInputUTXOList_taken this tx input :
  is_Some (inputUTXOList this !! ToString input) ->
  addInputUTXOList this tx input = (this, false).
Proof. intros [c Hc]. unfold addInputUTXOList. by rewrite Hc. Qed.

(** Two goroutines whose transactions reference the same free output, run
    turn by turn: both find the output free before either claims it, and both
    return without an error.  The index names the first; the claim of the
    second is dropped by [addInputUTXOList], whose result nobody reads. *)
Lemma run_turn_by_turn this t1 t2 k :
  GetReference t1 = Some [k] -> GetReference t2 = Some [k] ->
  inputUTXOList this !! ToString k = None ->
  run [false; true; false; true; false; true; false; true]
      this (enter t1) (enter t2)
  = (set_inputUTXOList <[ToString k := t1]> this,
     Returned None, Returned None).
Proof.
  intros H1 H2 Hfree. unfold enter. rewrite H1, H2.
  assert (Hget : getInputUTXOList this k = None) by done.
  do 2 (cbn [run step app]; rewrite Hget). cbn [run step app].
  rewrite (addInputUTXOList_free this t1 k Hfree). cbn [run step fst].
  rewrite addInputUTXOList_taken; [done|].
  simpl. by rewrite lookup_insert_eq.
Qed.

(** One after the other, the second is turned away. *)
Lemma run_one_after_the_other this t1 t2 k :
  GetReference t1 = Some [k] -> GetReference t2 = Some [k] ->
  inputUTXOList this !! ToString k = None ->
  run [false; false; false; false; true; true; true; true]
      this (enter t1) (enter t2)
  = (set_inputUTXOList <[ToString k := t1]> this,
     Returned None, Returned (Some (DoubleSpentDetected t1 k))).
Proof.
  intros H1 H2 Hfree. unfold enter. rewrite H1, H2.
  assert (Hget : getInputUTXOList this k = None) by done.
  cbn [run step]. rewrite Hget. cbn [run step app].
  rewrite (addInputUTXOList_free this t1 k Hfree). cbn [run step fst].
  unfold getInputUTXOList. simpl. by rewrite lookup_insert_eq.
Qed.

End Pool.

(** * The pool on the sample ledger *)

Section OnSample.
Import Sample.
Local Existing Instance E.

(** C3.  [L1] is pending and holds the lock; [L2] asks for the same lock and
    references output (7,2), which nobody claims.  The verification rejects
    [L2] with [ErrDuplicateLockAsset], the guard and the summary are as
    before, but the claimed-input index is not: output (7,2) is now claimed
    by the rejected [L2]. *)
Theorem duplicate_lock_rejection_keeps_claims :
  let this := accept init L1 in
  let r := verifyTransactionWithTxnPool this L2 in
  r.2 = ErrDuplicateLockAsset /\
  lockAssetList r.1 = lockAssetList this /\
  issueSummary r.1 = issueSummary this /\
  inputUTXOList this !! ToString (out 2) = None /\
  inputUTXOList r.1 !! ToString (out 2) = Some L2 /\
  inputUTXOList r.1 ≠ inputUTXOList this.
Proof.
  cbv zeta. repeat split; try (vm_compute; reflexivity).
  intros Heq.
  assert (Hl : inputUTXOList (verifyTransactionWithTxnPool (accept init L1) L2).1
                 !! ToString (out 2) = Some L2) by (vm_compute; reflexivity).
  rewrite Heq in Hl. vm_compute in Hl. discriminate Hl.
Qed.

(** C4.  [I2] is pending with 50 of asset 11.  [I1] issues 200 of asset 10,
    capped at 100, and 10 of asset 11, and the loop visits asset 10 first: the
    verification rejects [I1] with [ErrSummaryAsset] before asset 11 is
    reached.  The rollback still subtracts 10 from asset 11: its summary is
    40, although the only pending transaction, [I2], issues 50 of it. *)
Theorem issuance_rollback_takes_from_others :
  let this := accept init I2 in
  let r := verifyTransactionWithTxnPool this I1 in
  r.2 = ErrSummaryAsset /\
  txnList r.1 = txnList this /\
  inputUTXOList r.1 = inputUTXOList this /\
  getAssetIssueAmount this 11 = 50 /\
  getAssetIssueAmount r.1 11 = 40.
Proof. cbv zeta. repeat split; vm_compute; reflexivity. Qed.

(** C5, as stated, fails: [L1] is a [LockAsset] transaction with target
    "lock", it is pending and holds the lock.  [removeTransaction] takes it
    out of the pending set and releases its output (7,1), and its lock
    identifier is still in the guard. *)
Theorem removeTransaction_keeps_lock :
  let this := accept init L1 in
  let this' := removeTransaction this L1 in
  TxType L1 = LockAsset /\
  lockAssetList this = {["lock"%string]} /\
  txnList this' !! Hash L1 = None /\
  inputUTXOList this' !! ToString (out 1) = None /\
  lockAssetList this' = {["lock"%string]} /\
  lockAssetPayload L1 = Some "lock"%string /\
  "lock"%string ∈ lockAssetList this'.
Proof.
  cbv zeta. repeat split; vm_compute; reflexivity.
Qed.

(** C7, as stated, fails: [T1] is admitted with the pool checks on, and its
    second admission is rejected with [ErrDoubleSpend]. *)
Lemma AppendTxnPool_again_rejected :
  AppendTxnPool init T1 true = (accept init T1, ErrNoError) /\
  (AppendTxnPool (accept init T1) T1 true).2 = ErrDoubleSpend /\
  ErrDoubleSpend ≠ ErrNoError.
Proof. repeat split; try (vm_compute; reflexivity). discriminate. Qed.

(** C9.  [T1] and [T2] both reference output (7,0), and neither locks or
    issues, so their verification is [apendToUTXOPool].  The pool is locked
    once per access: run turn by turn on the empty pool, both goroutines find
    the output unclaimed and both return without an error, though the index
    keeps the claim of [T1] only.  Run one after the other, the second is
    turned away. *)
Theorem concurrent_admissions_both_pass :
  GetReference T1 = Some [out 0] /\ GetReference T2 = Some [out 0] /\
  run [false; true; false; true; false; true; false; true]
      init (enter T1) (enter T2)
  = (set_inputUTXOList <[ToString (out 0) := T1]> init,
     Returned None, Returned None) /\
  run [false; false; false; false; true; true; true; true]
      init (enter T1) (enter T2)
  = (set_inputUTXOList <[ToString (out 0) := T1]> init,
     Returned None, Returned (Some (DoubleSpentDetected T1 (out 0)))).
Proof. repeat split; vm_compute; reflexivity. Qed.

(** C1 on the sample: [T2] against the pool holding [T1] is a double spend;
    [T1] against the empty pool is recorded. *)
Lemma verifyTransactionWithTxnPool_double_spend_witness :
  verifyTransactionWithTxnPool (accept init T1) T2
  = (accept init T1, ErrDoubleSpend) /\
  exists this1, apendToUTXOPool init T1 = (this1, None) /\
    inputUTXOList this1 !! ToString (out 0) = Some T1.
Proof.
  split.
  - apply (@verifyTransactionWithTxnPool_double_spend E
             (accept init T1) T2 [out 0] eq_refl).
    exists (out 0). split; [by left|]. vm_compute. by eexists.
  - destruct (@verifyTransactionWithTxnPool_double_spend E
                init T1 [out 0] eq_refl) as [_ Hfree].
    destruct Hfree as (this1 & Happ & Hclaimed & _).
    + intros k Hk. apply list_elem_of_singleton in Hk. by subst k.
    + exists this1. split; [done|]. apply Hclaimed. by left.
Defined.

(** C2 on the sample: 50 of asset 11 are pending, 900 of its cap of 1000 are
    confirmed, and [I4] issues 60 more. *)
Lemma verifyTransactionWithTxnPool_issuance_cap_witness :
  (verifyTransactionWithTxnPool (accept init I3) I4).2 = ErrSummaryAsset.
Proof.
  apply (@verifyTransactionWithTxnPool_issuance_cap E
           (accept init I3) I4 [out 6] eq_refl eq_refl).
  - intros k Hk. apply list_elem_of_singleton in Hk. by subst k.
  - apply NoDup_singleton.
  - intros k delta Hin. apply list_elem_of_singleton in Hin.
    injection Hin as -> ->. exists regB. exists 1000.
    repeat split. by eexists.
  - exists 11%N. exists 60. split; [by left|].
    exists regB. exists 1000. exists 900.
    repeat split; vm_compute; congruence.
Defined.

(** C6 on the sample: a block with the reward transaction, a transfer, a lock
    and an issue, all three pending. *)
Lemma CleanSubmittedTransactions_reconciles_witness :
  let this := accept (accept (accept init T1) L1) I2 in
  let this' := CleanSubmittedTransactions this [B0; T1; L1; I2] in
  txnList this' !! Hash I2 = None /\
  inputUTXOList this' !! ToString (out 4) = None /\
  ("lock"%string ∉ lockAssetList this') /\
  getAssetIssueAmount this' 11 = 0.
Proof.
  intros this this'.
  destruct (@CleanSubmittedTransactions_reconciles E this [B0; T1; L1; I2])
    as [Heach Hsum].
  - assert (Hs : issueSummary this = {[11%N := 50]})
      by (vm_compute; reflexivity).
    intros a v. rewrite Hs. intros [<- <-]%lookup_singleton_Some.
    unfold amount. lia.
  - intros txn k d Hin Hty Hkd.
    repeat (apply elem_of_cons in Hin as [->|Hin]); try discriminate Hty.
    + apply list_elem_of_singleton in Hkd. injection Hkd as -> ->.
      unfold amount. lia.
    + by apply elem_of_nil in Hin.
  - split; [|split; [|split]].
    + apply (Heach I2); [|discriminate]. by do 3 right; left.
    + apply (Heach I2) with (reference := [out 4]);
        [by do 3 right; left|discriminate|done|by left].
    + apply (Heach L1); [by do 2 right; left|discriminate|done].
    + subst this'. rewrite Hsum. vm_compute. reflexivity.
Defined.

(** C7 on the sample: [T1] admitted twice with the pool checks on. *)
Lemma AppendTxnPool_again_witness :
  AppendTxnPool (accept init T1) T1 true = (accept init T1, ErrDoubleSpend) /\
  AppendTxnPool (accept init T1) T1 false = (accept init T1, ErrNoError).
Proof.
  assert (Hfirst : AppendTxnPool init T1 true = (accept init T1, ErrNoError))
    by (vm_compute; reflexivity).
  split.
  - destruct (@AppendTxnPool_again E init (accept init T1) T1 true true Hfirst)
      as (_ & _ & _ & Hds).
    apply Hds; [done|done|]. by exists (out 0), [].
  - destruct (@AppendTxnPool_again E init (accept init T1) T1 true false Hfirst)
      as (_ & _ & Hok & _).
    by apply Hok.
Defined.

(** C10 on the sample: 50 pending of asset 11; decrementing by 20 leaves 30,
    by 70 leaves 0, and decrementing asset 10, which has no entry, creates
    none. *)
Lemma decrAssetIssueAmountSummary_clamps_witness :
  let this := accept init I2 in
  issueSummary (decrAssetIssueAmountSummary this 11 20) !! 11%N = Some 30 /\
  issueSummary (decrAssetIssueAmountSummary this 11 70) !! 11%N = Some 0 /\
  decrAssetIssueAmountSummary this 10 20 = this.
Proof.
  intros this. split; [|split].
  - destruct (decrAssetIssueAmountSummary_clamps this 11 20) as (_ & Hsome & _).
    destruct (Hsome 50) as (_ & Hfit & _); [by vm_compute|].
    apply Hfit. unfold inFixed64. lia.
  - destruct (decrAssetIssueAmountSummary_clamps this 11 70) as (_ & Hsome & _).
    destruct (Hsome 50) as (_ & Hfit & _); [by vm_compute|].
    apply Hfit. unfold inFixed64. lia.
  - destruct (decrAssetIssueAmountSummary_clamps this 10 20) as (Hnone & _).
    apply Hnone. by vm_compute.
Defined.

End OnSample.

(** C8 on the sample: [T1] and [L1] pending; without a maximum the copy is the
    pending set, with a maximum of one it has one entry. *)
Lemma GetTxnPool_limit_witness :
  let this := Sample.accept (Sample.accept init Sample.T1) Sample.L1 in
  let order := map_to_list (txnList this) in
  @GetTxnPool (Sample.externals 0) this order true = txnList this /\
  Z.of_nat (size (@GetTxnPool (Sample.externals 1) this order true)) = 1.
Proof.
  intros this order. split.
  - by apply (@GetTxnPool_limit (Sample.externals 0) this order true).
  - destruct (@GetTxnPool_limit (Sample.externals 1) this order true)
      as [_ Hpos]; [done|].
    destruct Hpos as (_ & _ & Hsize & _); [done|done|].
    rewrite Hsize. by vm_compute.
Defined.

(** * Further properties of the pool *)

Section Admission.
Context `{E : Externals}.

(** X1.  A transaction that one of the two validators turns down is not looked
    at by the pool: [AppendTxnPool] answers the validator's code and returns
    the pool it was given, with or without the pool checks. *)
Theorem AppendTxnPool_validation_failure (this : TXNPool)
    (txn : Transaction) (poolVerify : bool) :
  (VerifyTransaction txn ≠ ErrNoError ->
     AppendTxnPool this txn poolVerify = (this, VerifyTransaction txn)) /\
  (VerifyTransaction txn = ErrNoError ->
   VerifyTransactionWithLedger txn ≠ ErrNoError ->
     AppendTxnPool this txn poolVerify
     = (this, VerifyTransactionWithLedger txn)).
Proof.
  unfold AppendTxnPool. split.
  - intros Hv. by destruct (VerifyTransaction txn).
  - intros -> Hvl. by destruct (VerifyTransactionWithLedger txn).
Qed.

(** X2.  Without the pool checks an accepted transaction enters the pending
    set and nothing else moves: no output is claimed for it, no lock is
    recorded, no issued amount is counted, and the other pending transactions
    stay. *)
Theorem AppendTxnPool_without_pool_checks (this : TXNPool)
    (txn : Transaction) :
  VerifyTransaction txn = ErrNoError ->
  VerifyTransactionWithLedger txn = ErrNoError ->
  let r := AppendTxnPool this txn false in
  r.2 = ErrNoError /\
  is_Some (txnList r.1 !! Hash txn) /\
  (forall h, h ≠ Hash txn -> txnList r.1 !! h = txnList this !! h) /\
  inputUTXOList r.1 = inputUTXOList this /\
  issueSummary r.1 = issueSummary this /\
  lockAssetList r.1 = lockAssetList this.
Proof.
  intros Hv Hvl. unfold AppendTxnPool. rewrite Hv, Hvl. simpl.
  unfold addtxnList.
  destruct (txnList this !! Hash txn) as [t0|] eqn:Hl; simpl.
  - rewrite Hl. eauto 10.
  - rewrite lookup_insert_eq. repeat split; eauto.
    intros h Hh. by rewrite lookup_insert_ne.
Qed.

(** X3.  After a successful admission the pool answers for the hash of the
    transaction.  If the hash was not pending, [GetTransaction] returns the
    transaction and the count has grown by one; if it was pending, the
    transaction that was there stays and the count is the same. *)
Theorem AppendTxnPool_then_GetTransaction (this this1 : TXNPool)
    (txn : Transaction) (poolVerify : bool) :
  AppendTxnPool this txn poolVerify = (this1, ErrNoError) ->
  (txnList this !! Hash txn = None ->
     GetTransaction this1 (Hash txn) = Some txn /\
     GetTransactionCount this1 = GetTransactionCount this + 1) /\
  (forall t0, txnList this !! Hash txn = Some t0 ->
     GetTransaction this1 (Hash txn) = Some t0 /\
     GetTransactionCount this1 = GetTransactionCount this).
Proof.
  intros Hok. apply AppendTxnPool_ok in Hok as (_ & _ & p & -> & Hp).
  assert (Htl : txnList p = txnList this).
  { destruct poolVerify; [|by subst].
    by apply verifyTransactionWithTxnPool_ok in Hp as (? & _ & _ & _ & ?). }
  unfold GetTransaction, GetTransactionCount, addtxnList. rewrite Htl. split.
  - intros Hnone. rewrite Hnone. simpl. rewrite Htl, lookup_insert_eq.
    split; [done|]. rewrite map_size_insert_None by done. lia.
  - intros t0 Hsome. rewrite Hsome. simpl. by rewrite Htl, Hsome.
Qed.

(** X4.  A rejected admission never adds to the pending set and never touches
    the entry of another hash: the only entry it can drop is the one under the
    hash of the rejected transaction itself. *)
Theorem AppendTxnPool_rejected (this : TXNPool) (txn : Transaction)
    (poolVerify : bool) :
  (AppendTxnPool this txn poolVerify).2 ≠ ErrNoError ->
  let this' := (AppendTxnPool this txn poolVerify).1 in
  (forall h, h ≠ Hash txn -> txnList this' !! h = txnList this !! h) /\
  (txnList this' !! Hash txn = None \/
   txnList this' !! Hash txn = txnList this !! Hash txn).
Proof.
  unfold AppendTxnPool.
  destruct (VerifyTransaction txn); simpl; try (intros _; by auto).
  destruct (VerifyTransactionWithLedger txn); simpl; try (intros _; by auto).
  destruct poolVerify; [|done].
  pose proof (verifyTransactionWithTxnPool_txnList this txn) as Htl.
  destruct (verifyTransactionWithTxnPool this txn) as [q code].
  simpl in Htl. destruct code; try done; simpl; intros _.
  all: destruct Htl as [[_ ->]|[_ ->]]; split;
    [done|by right|intros h Hh; by rewrite lookup_delete_ne
    |left; apply lookup_delete_eq].
Qed.

(** X5.  [addtxnList] and [deltxnList] on a hash that is not pending: the
    insertion reports true, and deleting right after gives the pool back and
    reports true.  On a hash that is pending the insertion reports false and
    keeps the transaction that was there; deleting a hash that is not pending
    reports false and changes nothing. *)
Theorem addtxnList_then_deltxnList (this : TXNPool) (txn : Transaction) :
  (txnList this !! Hash txn = None ->
     (addtxnList this txn).2 = true /\
     deltxnList (addtxnList this txn).1 txn = (this, true) /\
     deltxnList this txn = (this, false)) /\
  (forall t0, txnList this !! Hash txn = Some t0 ->
     addtxnList this txn = (this, false) /\
     (deltxnList this txn).2 = true /\
     txnList (deltxnList this txn).1 !! Hash txn = None).
Proof.
  unfold addtxnList, deltxnList. split.
  - intros Hnone. rewrite Hnone. simpl. rewrite lookup_insert_eq.
    split; [done|]. split; [|done]. f_equal.
    destruct this as [cnt tl sm inp lk]. unfold set_txnList. simpl in *.
    f_equal. by apply delete_insert_id.
  - intros t0 Hsome. rewrite Hsome. simpl. by rewrite lookup_delete_eq.
Qed.

(** X6.  The verification answers [ErrDoubleSpend] exactly when the inputs of
    the transaction cannot be resolved or one of the outputs it references is
    in the claimed-input index; whether two references of the transaction
    itself name the same output plays no part.  With that answer the pool is
    returned as it was. *)
Theorem verifyTransactionWithTxnPool_double_spend_iff (this : TXNPool)
    (txn : Transaction) :
  ((verifyTransactionWithTxnPool this txn).2 = ErrDoubleSpend <->
     GetReference txn = None \/
     exists reference k, GetReference txn = Some reference /\
       k ∈ reference /\ is_Some (inputUTXOList this !! ToString k)) /\
  ((verifyTransactionWithTxnPool this txn).2 = ErrDoubleSpend ->
     (verifyTransactionWithTxnPool this txn).1 = this).
Proof.
  unfold verifyTransactionWithTxnPool.
  destruct (apendToUTXOPool this txn) as [p [err|]] eqn:Happ; simpl.
  - pose proof (apendToUTXOPool_error _ _ _ _ Happ) as ->.
    split; [|done]. split; [|done]. intros _.
    unfold apendToUTXOPool in Happ.
    destruct (GetReference txn) as [reference|] eqn:Href; [|by left].
    right. exists reference.
    destruct (checkInputs this reference []) as [e|l] eqn:Hchk; [|done].
    destruct (decide (Forall (fun k => inputUTXOList this !! ToString k = None)
                        reference)) as [Hall|Hex].
    + rewrite Forall_forall in Hall.
      rewrite checkInputs_inr in Hchk by done. done.
    + apply not_Forall_Exists in Hex; [|apply _].
      apply Exists_exists in Hex as (k & Hin & Hk). exists k.
      split; [done|]. split; [done|].
      simpl in Hk.
      destruct (inputUTXOList this !! ToString k); [by eexists|done].
  - apply apendToUTXOPool_ok in Happ as (reference & Href & Hfree & ->).
    assert (Hno : (let '(p, o) := checkDuplicateLockAsset
                                    (addInputs this txn reference) txn in
                   match o with
                   | Some _ => (p, ErrDuplicateLockAsset)
                   | None =>
                       match summaryAssetIssueAmount p txn with
                       | (p, false) => (removeTransaction p txn,
                                        ErrSummaryAsset)
                       | (p, true) => (p, ErrNoError)
                       end
                   end).2 ≠ ErrDoubleSpend).
    { destruct (checkDuplicateLockAsset _ txn) as [p2 [e|]]; [done|].
      by destruct (summaryAssetIssueAmount p2 txn) as [p3 []]. }
    split; [|done]. split; [done|].
    intros [Hnone|(reference' & k & Href' & Hin & Hk)]; [congruence|].
    rewrite Href in Href'. injection Href' as <-.
    rewrite Hfree in Hk by done. by destruct Hk.
Qed.

End Admission.

Section Verification.
Context `{E : Externals}.

Lemma lockAssetPayload_None txn :
  TxType txn ≠ LockAsset -> lockAssetPayload txn = None.
Proof.
  unfold lockAssetPayload. destruct txn as [[] pl h]; simpl; done.
Qed.

Lemma lockAssetPayload_Some txn str :
  lockAssetPayload txn = Some str -> TxType txn = LockAsset.
Proof.
  unfold lockAssetPayload. destruct txn as [[] pl h]; simpl; done.
Qed.

Lemma verifyTransactionWithTxnPool_ok_guard this txn this1 :
  verifyTransactionWithTxnPool this txn = (this1, ErrNoError) ->
  match lockAssetPayload txn with
  | Some str =>
      (str ∉ lockAssetList this) /\
      lockAssetList this1 = {[str]} ∪ lockAssetList this
  | None => lockAssetList this1 = lockAssetList this
  end.
Proof.
  unfold verifyTransactionWithTxnPool.
  destruct (apendToUTXOPool this txn) as [p1 [err|]] eqn:Happ; [done|].
  apply apendToUTXOPool_ok in Happ as (reference & _ & _ & ->).
  destruct (addInputs_fields this txn reference) as (_ & _ & _ & Hlk1).
  unfold checkDuplicateLockAsset.
  destruct (lockAssetPayload txn) as [str|].
  - case_decide as Hin; [done|].
    match goal with |- context [summaryAssetIssueAmount ?p txn] =>
      pose proof (summaryAssetIssueAmount_fields p txn) as (_ & _ & _ & Hlk3);
      destruct (summaryAssetIssueAmount p txn) as [p3 []]; [|done] end.
    simpl in *. intros [= <-]. rewrite <- Hlk1. split; [done|].
    by rewrite Hlk3.
  - pose proof (summaryAssetIssueAmount_fields
                  (addInputs this txn reference) txn) as (_ & _ & _ & Hlk3).
    destruct (summaryAssetIssueAmount _ txn) as [p3 []]; [|done].
    simpl in *. intros [= <-]. congruence.
Qed.

Lemma verifyTransactionWithTxnPool_double_spend_same this txn this' :
  verifyTransactionWithTxnPool this txn = (this', ErrDoubleSpend) ->
  this' = this.
Proof.
  unfold verifyTransactionWithTxnPool.
  destruct (apendToUTXOPool this txn) as [p1 [err|]] eqn:Happ.
  - apply apendToUTXOPool_error in Happ. congruence.
  - destruct (checkDuplicateLockAsset p1 txn) as [p2 [err|]]; [done|].
    by destruct (summaryAssetIssueAmount p2 txn) as [p3 []].
Qed.

(** X7.  Verification against the pool never takes an output away from its
    claimant: a key that the claimed-input index maps to a transaction is
    mapped to the same transaction afterwards, whatever the answer. *)
Theorem verifyTransactionWithTxnPool_keeps_claims (this : TXNPool)
    (txn claimant : Transaction) (s : string) :
  inputUTXOList this !! s = Some claimant ->
  inputUTXOList (verifyTransactionWithTxnPool this txn).1 !! s
  = Some claimant.
Proof.
  intros Hs.
  destruct (verifyTransactionWithTxnPool this txn) as [p code] eqn:Hv.
  simpl. destruct code.
  - apply verifyTransactionWithTxnPool_ok in Hv as (r & _ & _ & -> & _).
    by rewrite addInputs_lookup, Hs.
  - apply verifyTransactionWithTxnPool_double_spend_same in Hv. by subst.
  - apply verifyTransactionWithTxnPool_duplicate_lock in Hv
      as (r & str & _ & _ & _ & ->).
    by rewrite addInputs_lookup, Hs.
  - apply verifyTransactionWithTxnPool_summary_rollback in Hv
      as (_ & -> & _). done.
  - exfalso. revert Hv. unfold verifyTransactionWithTxnPool.
    destruct (apendToUTXOPool this txn) as [p1 [err|]]; [done|].
    destruct (checkDuplicateLockAsset p1 txn) as [p2 [err|]]; [done|].
    by destruct (summaryAssetIssueAmount p2 txn) as [p3 []].
Qed.

(** X8.  The verification answers one of its own four codes.  Only a
    [LockAsset] transaction can be answered [ErrDuplicateLockAsset] or change
    the guard, and only an [IssueAsset] transaction can be answered
    [ErrSummaryAsset], change the issuance summary or lose its place in the
    pending set. *)
Theorem verifyTransactionWithTxnPool_frame (this : TXNPool)
    (txn : Transaction) :
  let r := verifyTransactionWithTxnPool this txn in
  (r.2 = ErrNoError \/ r.2 = ErrDoubleSpend \/
   r.2 = ErrDuplicateLockAsset \/ r.2 = ErrSummaryAsset) /\
  (TxType txn ≠ LockAsset ->
     r.2 ≠ ErrDuplicateLockAsset /\ lockAssetList r.1 = lockAssetList this) /\
  (TxType txn ≠ IssueAsset ->
     r.2 ≠ ErrSummaryAsset /\ issueSummary r.1 = issueSummary this /\
     txnList r.1 = txnList this).
Proof.
  unfold verifyTransactionWithTxnPool.
  destruct (apendToUTXOPool this txn) as [p1 [err|]] eqn:Happ.
  { apply apendToUTXOPool_error in Happ as ->. simpl. auto 10. }
  apply apendToUTXOPool_ok in Happ as (reference & _ & _ & ->).
  destruct (addInputs_fields this txn reference) as (_ & Htl1 & Hsm1 & Hlk1).
  pose proof (checkDuplicateLockAsset_fields
                (addInputs this txn reference) txn) as (_ & Htl2 & Hsm2 & _).
  destruct (checkDuplicateLockAsset _ txn) as [p2 [err|]] eqn:Hchk.
  { pose proof (checkDuplicateLockAsset_error _ _ _ _ Hchk) as ->.
    simpl. split; [auto|]. split; [|by auto].
    intros Hty. unfold checkDuplicateLockAsset in Hchk.
    by rewrite lockAssetPayload_None in Hchk. }
  simpl in Htl2, Hsm2.
  assert (Hlk2 : TxType txn ≠ LockAsset -> lockAssetList p2 = lockAssetList this).
  { intros Hty. unfold checkDuplicateLockAsset in Hchk.
    rewrite lockAssetPayload_None in Hchk by done. congruence. }
  pose proof (summaryAssetIssueAmount_fields p2 txn) as (_ & Htl3 & _ & Hlk3).
  destruct (summaryAssetIssueAmount p2 txn) as [p3 []] eqn:Hsum;
    simpl in *.
  - split; [auto|]. split.
    + intros Hty. split; [done|]. rewrite Hlk3. by apply Hlk2.
    + intros Hty. unfold summaryAssetIssueAmount in Hsum.
      rewrite decide_False in Hsum by done. injection Hsum as <-.
      split; [done|]. split; congruence.
  - split; [auto 10|]. split.
    + intros Hty. split; [done|].
      rewrite removeTransaction_lockAssetList, Hlk3. by apply Hlk2.
    + intros Hty. unfold summaryAssetIssueAmount in Hsum.
      by rewrite decide_False in Hsum.
Qed.

(** X9.  Once a [LockAsset] transaction has passed the verification, a second
    one with the same target whose outputs are free is answered
    [ErrDuplicateLockAsset]; the pool it leaves is the one it found plus the
    claims on the outputs of the second transaction. *)
Theorem verifyTransactionWithTxnPool_second_lock (this this1 : TXNPool)
    (l1 l2 : Transaction) (str : string) (reference : list UTXOTxInput) :
  verifyTransactionWithTxnPool this l1 = (this1, ErrNoError) ->
  lockAssetPayload l1 = Some str -> lockAssetPayload l2 = Some str ->
  GetReference l2 = Some reference ->
  (forall k, k ∈ reference -> inputUTXOList this1 !! ToString k = None) ->
  verifyTransactionWithTxnPool this1 l2
  = (addInputs this1 l2 reference, ErrDuplicateLockAsset).
Proof.
  intros Hv H1 H2 Href Hfree.
  apply verifyTransactionWithTxnPool_ok_guard in Hv. rewrite H1 in Hv.
  destruct Hv as [_ Hlk].
  unfold verifyTransactionWithTxnPool.
  rewrite (apendToUTXOPool_free this1 l2 reference Href Hfree).
  destruct (addInputs_fields this1 l2 reference) as (_ & _ & _ & Hlk1).
  unfold checkDuplicateLockAsset. rewrite H2.
  rewrite decide_True; [done|].
  simpl in Hlk1. rewrite Hlk1, Hlk. apply elem_of_union_l.
  by apply elem_of_singleton.
Qed.

(** X10.  Once a transaction has been admitted with the pool checks on, a
    transaction that references one of the same outputs and gets through the
    validators is answered [ErrDoubleSpend] by an admission with the pool
    checks on, and the pool is returned as it was. *)
Theorem AppendTxnPool_pending_double_spend (this this1 : TXNPool)
    (t1 t2 : Transaction) (r1 r2 : list UTXOTxInput) (k1 k2 : UTXOTxInput) :
  AppendTxnPool this t1 true = (this1, ErrNoError) ->
  GetReference t1 = Some r1 -> GetReference t2 = Some r2 ->
  k1 ∈ r1 -> k2 ∈ r2 -> ToString k1 = ToString k2 ->
  VerifyTransaction t2 = ErrNoError ->
  VerifyTransactionWithLedger t2 = ErrNoError ->
  AppendTxnPool this1 t2 true = (this1, ErrDoubleSpend).
Proof.
  intros Hfirst Hr1 Hr2 Hk1 Hk2 Hsame Hv Hvl.
  apply AppendTxnPool_ok in Hfirst as (_ & _ & p & -> & Hp).
  apply verifyTransactionWithTxnPool_ok in Hp
    as (r1' & Hr1' & Hfree & Hinp & _).
  rewrite Hr1 in Hr1'. injection Hr1' as <-.
  destruct (addtxnList_member p t1) as [_ Hin].
  assert (Hk : is_Some (inputUTXOList (addtxnList p t1).1 !! ToString k2)).
  { rewrite Hin, Hinp, addInputs_lookup, <- Hsame. rewrite Hfree by done.
    rewrite decide_True; [done|]. by apply list_elem_of_fmap_2. }
  unfold AppendTxnPool. rewrite Hv, Hvl.
  unfold verifyTransactionWithTxnPool.
  by destruct (apendToUTXOPool_claimed _ t2 _ k2 Hr2 Hk2 Hk) as [err ->].
Qed.

Lemma summaryLoop_unbounded this l :
  (forall k d, (k, d) ∈ l -> exists reg Amount,
     TxStore_GetTransaction k = Some reg /\
     registerAssetAmount reg = Some Amount /\ Amount < 0) ->
  (summaryLoop this l).2 = true.
Proof.
  revert this. induction l as [|[k d] l IH]; intros this Hl; [done|].
  destruct (Hl k d) as (reg & Amount & Hreg & Hamount & Hneg); [by left|].
  simpl. rewrite Hreg, Hamount.
  destruct (Z.ltb_spec Amount 0); [|lia].
  apply IH. intros k' d' Hin. apply (Hl k' d'). by right.
Qed.

(** X11.  An issuing transaction all of whose assets are registered with the
    negative marker passes the issuance check whatever the pool has counted
    for them: once its outputs are free, the verification answers
    [ErrNoError]. *)
Theorem verifyTransactionWithTxnPool_unbounded (this : TXNPool)
    (txn : Transaction) (reference : list UTXOTxInput) :
  TxType txn = IssueAsset ->
  GetReference txn = Some reference ->
  (forall k, k ∈ reference -> inputUTXOList this !! ToString k = None) ->
  (forall k d, (k, d) ∈ GetMergedAssetIDValueFromOutputs txn ->
     exists reg Amount, TxStore_GetTransaction k = Some reg /\
       registerAssetAmount reg = Some Amount /\ Amount < 0) ->
  (verifyTransactionWithTxnPool this txn).2 = ErrNoError.
Proof.
  intros Hty Href Hfree Hunb. unfold verifyTransactionWithTxnPool.
  rewrite (apendToUTXOPool_free this txn reference Href Hfree).
  unfold checkDuplicateLockAsset.
  rewrite lockAssetPayload_None by (rewrite Hty; done).
  unfold summaryAssetIssueAmount. rewrite decide_True by done.
  pose proof (summaryLoop_unbounded (addInputs this txn reference) _ Hunb).
  by destruct (summaryLoop _ _) as [p3 []].
Qed.

Lemma summaryLoop_unanswered this l k d :
  (k, d) ∈ l -> ~ ledgerAnswers k -> (summaryLoop this l).2 = false.
Proof.
  intros Hin Hno. revert this.
  induction l as [|[k' d'] l IH]; intros this;
    [by apply elem_of_nil in Hin|].
  simpl.
  destruct (TxStore_GetTransaction k') as [reg|] eqn:Hreg; [|done].
  destruct (registerAssetAmount reg) as [Amount|] eqn:Hamount; [|done].
  apply elem_of_cons in Hin as [[= <- <-]|Hin].
  - destruct (Z.ltb_spec Amount 0) as [Hneg|Hpos].
    + exfalso. apply Hno. exists reg, Amount. repeat split; [done..|lia].
    + destruct (TxStore_GetQuantityIssued k) as [q|] eqn:Hq; [|done].
      exfalso. apply Hno. exists reg, Amount. repeat split; [done..|].
      intros _. by rewrite Hq.
  - destruct (Amount <? 0); [by apply IH|].
    destruct (TxStore_GetQuantityIssued k') as [q|]; [|done].
    destruct (_ <? _); [done|by apply IH].
Qed.

(** X12.  An issuing transaction is turned down with [ErrSummaryAsset] as
    soon as the ledger cannot answer for one of its assets: the asset has no
    stored transaction, the stored transaction is no registration, or the
    confirmed quantity of a capped asset cannot be read. *)
Theorem verifyTransactionWithTxnPool_unanswered (this : TXNPool)
    (txn : Transaction) (reference : list UTXOTxInput)
    (k : Uint256) (d : Fixed64) :
  TxType txn = IssueAsset ->
  GetReference txn = Some reference ->
  (forall k, k ∈ reference -> inputUTXOList this !! ToString k = None) ->
  (k, d) ∈ GetMergedAssetIDValueFromOutputs txn ->
  ~ ledgerAnswers k ->
  (verifyTransactionWithTxnPool this txn).2 = ErrSummaryAsset.
Proof.
  intros Hty Href Hfree Hin Hno. unfold verifyTransactionWithTxnPool.
  rewrite (apendToUTXOPool_free this txn reference Href Hfree).
  unfold checkDuplicateLockAsset.
  rewrite lockAssetPayload_None by (rewrite Hty; done).
  unfold summaryAssetIssueAmount. rewrite decide_True by done.
  pose proof (summaryLoop_unanswered (addInputs this txn reference)
                _ k d Hin Hno).
  by destruct (summaryLoop _ _) as [p3 []].
Qed.

Lemma verifyTransactionWithTxnPool_summary_inv this txn this' :
  verifyTransactionWithTxnPool this txn = (this', ErrSummaryAsset) ->
  exists reference p3,
    GetReference txn = Some reference /\
    (forall k, k ∈ reference -> inputUTXOList this !! ToString k = None) /\
    TxType txn = IssueAsset /\
    summaryLoop (addInputs this txn reference)
      (GetMergedAssetIDValueFromOutputs txn) = (p3, false) /\
    this' = removeTransaction p3 txn.
Proof.
  unfold verifyTransactionWithTxnPool.
  destruct (apendToUTXOPool this txn) as [p1 [err|]] eqn:Happ; [done|].
  apply apendToUTXOPool_ok in Happ as (reference & Href & Hfree & ->).
  unfold checkDuplicateLockAsset.
  destruct (lockAssetPayload txn) as [str|] eqn:Hstr.
  - apply lockAssetPayload_Some in Hstr. case_decide; [done|].
    unfold summaryAssetIssueAmount. by rewrite decide_False by congruence.
  - unfold summaryAssetIssueAmount. case_decide as Hty; [|done].
    destruct (summaryLoop _ _) as [p3 []] eqn:Hloop; [done|].
    intros [= <-]. by exists reference, p3.
Qed.

Lemma summaryLoop_single this k d :
  (summaryLoop this [(k, d)]).1 = incrAssetIssueAmountSummary this k d.
Proof.
  simpl. destruct (TxStore_GetTransaction k) as [reg|]; [|done].
  destruct (registerAssetAmount reg) as [Amount|]; [|done].
  destruct (Amount <? 0); [done|].
  destruct (TxStore_GetQuantityIssued k) as [q|]; [|done].
  by destruct (_ <? _).
Qed.

Lemma decr_incr_summary this k d :
  amount (getAssetIssueAmount this k) ->
  issueSummary (decrAssetIssueAmountSummary
                  (incrAssetIssueAmountSummary this k d) k d)
  = <[k := getAssetIssueAmount this k]> (issueSummary this).
Proof.
  intros [Hlo Hhi].
  rewrite (decr_unfold _ _ _ (add64 (getAssetIssueAmount this k) d)).
  - simpl. rewrite insert_insert_eq. f_equal.
    rewrite sub64_add64 by (unfold inFixed64; lia). lia.
  - simpl. by rewrite lookup_insert_eq.
Qed.

(** X13.  When the issuance check turns down a transaction that issues a
    single asset, the rollback is exact: the claimed-input index and the
    guard are those of before the call, and so is the amount the pool counts
    for every asset, provided the amount counted for the issued asset was not
    negative.  The pending set loses the hash of the transaction, had it been
    there. *)
Theorem verifyTransactionWithTxnPool_single_asset_rollback
    (this this' : TXNPool) (txn : Transaction) (k : Uint256) (d : Fixed64) :
  verifyTransactionWithTxnPool this txn = (this', ErrSummaryAsset) ->
  GetMergedAssetIDValueFromOutputs txn = [(k, d)] ->
  amount (getAssetIssueAmount this k) ->
  inputUTXOList this' = inputUTXOList this /\
  lockAssetList this' = lockAssetList this /\
  txnList this' = delete (Hash txn) (txnList this) /\
  (forall a, getAssetIssueAmount this' a = getAssetIssueAmount this a).
Proof.
  intros Hv Hone Hold.
  destruct (verifyTransactionWithTxnPool_summary_rollback _ _ _ Hv)
    as (_ & Hin & Hlk & Htl).
  repeat split; try done.
  apply verifyTransactionWithTxnPool_summary_inv in Hv
    as (reference & p3 & Href & _ & Hty & Hloop & ->).
  intros a. unfold getAssetIssueAmount at 1.
  rewrite (removeTransaction_summary _ _ _ Href Hty), Hone.
  rewrite Hone in Hloop.
  pose proof (summaryLoop_single (addInputs this txn reference) k d) as Hp3.
  rewrite Hloop in Hp3. simpl in Hp3. subst p3.
  destruct (addInputs_fields this txn reference) as (_ & _ & Hsm & _).
  assert (Hget : getAssetIssueAmount (addInputs this txn reference) k
                 = getAssetIssueAmount this k).
  { unfold getAssetIssueAmount. simpl in Hsm. by rewrite Hsm. }
  unfold decrAll. simpl foldl.
  rewrite decr_incr_summary by (by rewrite Hget).
  simpl in Hsm. rewrite Hsm, Hget.
  destruct (decide (k = a)) as [<-|Hne].
  - by rewrite lookup_insert_eq.
  - by rewrite lookup_insert_ne.
Qed.

(** X14.  After a successful admission with the pool checks on, every output
    the transaction references was free before and is claimed by the
    transaction now, its lock target, if it has one, was not in the guard and
    is in it now, and the transaction's hash is pending. *)
Theorem AppendTxnPool_with_pool_checks (this this1 : TXNPool)
    (txn : Transaction) :
  AppendTxnPool this txn true = (this1, ErrNoError) ->
  exists reference, GetReference txn = Some reference /\
    (forall k, k ∈ reference ->
       inputUTXOList this !! ToString k = None /\
       inputUTXOList this1 !! ToString k = Some txn) /\
    (forall str, lockAssetPayload txn = Some str ->
       (str ∉ lockAssetList this) /\ str ∈ lockAssetList this1) /\
    is_Some (txnList this1 !! Hash txn).
Proof.
  intros Hok. apply AppendTxnPool_ok in Hok as (_ & _ & p & -> & Hp).
  pose proof (verifyTransactionWithTxnPool_ok_guard _ _ _ Hp) as Hguard.
  apply verifyTransactionWithTxnPool_ok in Hp
    as (reference & Href & Hfree & Hinp & _).
  destruct (addtxnList_member p txn) as [Hmem Hin].
  assert (Hlk : lockAssetList (addtxnList p txn).1 = lockAssetList p).
  { unfold addtxnList. by destruct (txnList p !! Hash txn). }
  exists reference. split; [done|]. split; [|split; [|done]].
  - intros k Hk. split; [by apply Hfree|].
    rewrite Hin, Hinp, addInputs_lookup, Hfree by done.
    rewrite decide_True; [done|]. by apply list_elem_of_fmap_2.
  - intros str Hstr. rewrite Hstr in Hguard. destruct Hguard as [Hnot Heq].
    split; [done|]. rewrite Hlk, Heq. apply elem_of_union_l.
    by apply elem_of_singleton.
Qed.

(** X15.  [removeTransaction] on a transaction whose inputs resolve: the hash
    leaves the pending set; every output the transaction references leaves
    the claimed-input index, whoever its claimant is, and no other key moves;
    the guard is untouched; the issuance summary is decremented for an
    issuing transaction and untouched for any other. *)
Theorem removeTransaction_effect (this : TXNPool) (txn : Transaction)
    (reference : list UTXOTxInput) :
  GetReference txn = Some reference ->
  let this' := removeTransaction this txn in
  txnList this' = delete (Hash txn) (txnList this) /\
  (forall s, inputUTXOList this' !! s
     = if decide (s ∈ ToString <$> reference) then None
       else inputUTXOList this !! s) /\
  lockAssetList this' = lockAssetList this /\
  (TxType txn = IssueAsset ->
     issueSummary this'
     = issueSummary (decrAll this (GetMergedAssetIDValueFromOutputs txn))) /\
  (TxType txn ≠ IssueAsset -> issueSummary this' = issueSummary this).
Proof.
  intros Href this'. subst this'.
  split; [apply removeTransaction_txnList|]. split; [|split; [|split]].
  - intros s. rewrite (removeTransaction_inputUTXOList _ _ _ Href).
    apply delInputs_lookup.
  - apply removeTransaction_lockAssetList.
  - by apply removeTransaction_summary with (reference := reference).
  - intros Hty. unfold removeTransaction. rewrite Href, deltxnList_eq.
    rewrite decide_False by done. by rewrite delInputs_eq.
Qed.

(** X16.  [removeTransaction] on a transaction whose inputs do not resolve
    stops after the pending set: the hash is removed there, and neither the
    claimed-input index nor the issuance summary nor the guard is touched,
    also for an issuing transaction. *)
Theorem removeTransaction_unresolved (this : TXNPool) (txn : Transaction) :
  GetReference txn = None ->
  removeTransaction this txn = set_txnList (delete (Hash txn)) this.
Proof.
  intros Href. unfold removeTransaction. by rewrite Href, deltxnList_eq.
Qed.

(** X17.  Counting an amount and taking it back leaves what the pool counts
    for the asset, whatever the amount and even when the addition wraps
    around, provided the count was not negative; an asset without an entry
    ends with an entry of zero. *)
Theorem incr_then_decr (this : TXNPool) (k : Uint256) (d : Fixed64) :
  amount (getAssetIssueAmount this k) ->
  let this' := decrAssetIssueAmountSummary
                 (incrAssetIssueAmountSummary this k d) k d in
  (forall a, getAssetIssueAmount this' a = getAssetIssueAmount this a) /\
  issueSummary this' !! k = Some (getAssetIssueAmount this k).
Proof.
  intros Hold this'. subst this'.
  split; [|by rewrite decr_incr_summary, lookup_insert_eq].
  intros a. unfold getAssetIssueAmount at 1.
  rewrite decr_incr_summary by done.
  destruct (decide (k = a)) as [<-|Hne].
  - by rewrite lookup_insert_eq.
  - by rewrite lookup_insert_ne.
Qed.

End Verification.

Section Reconciliation.
Context `{E : Externals}.

Lemma cleanTransactionList_counters this txns n c :
  let r := foldl (fun '(this, (txnsNum, cleaned)) txn =>
                    if decide (TxType txn = BookKeeping)
                    then (this, (txnsNum - 1, cleaned))
                    else
                      match deltxnList this txn with
                      | (this, true) => (this, (txnsNum, cleaned + 1))
                      | (this, false) => (this, (txnsNum, cleaned))
                      end)
                 (this, (n, c)) txns in
  let bookKeeping :=
    Z.of_nat (length (filter (fun txn => TxType txn = BookKeeping) txns)) in
  r.2.1 = n - bookKeeping /\
  r.2.2 - c = Z.of_nat (size (txnList this)) - Z.of_nat (size (txnList r.1)) /\
  0 <= r.2.2 - c <= Z.of_nat (length txns) - bookKeeping /\
  (NoDup (Hash <$> filter (fun txn => TxType txn ≠ BookKeeping) txns) ->
   (forall txn, txn ∈ txns -> TxType txn ≠ BookKeeping ->
      is_Some (txnList this !! Hash txn)) ->
   r.2.2 - c = Z.of_nat (length txns) - bookKeeping).
Proof.
  revert this n c. induction txns as [|txn txns IH]; intros this n c.
  - simpl. repeat split; try lia.
  - simpl foldl. rewrite !filter_cons.
    destruct (decide (TxType txn = BookKeeping)) as [Hbk|Hbk].
    + rewrite decide_False by (by intros ?).
      specialize (IH this (n - 1) c). simpl in IH.
      destruct IH as (H1 & H2 & H3 & H4). simpl length.
      split; [lia|]. split; [lia|]. split; [lia|].
      intros Hnd Hpend. rewrite H4; [lia|done|].
      intros t Ht. apply Hpend. by right.
    + rewrite decide_True by done.
      pose proof (deltxnList_eq this txn) as Hdel.
      assert (Hsize : Z.of_nat (size (txnList this))
                      - Z.of_nat (size (txnList (deltxnList this txn).1))
                      = if (deltxnList this txn).2 then 1 else 0).
      { unfold deltxnList.
        destruct (txnList this !! Hash txn) eqn:Hl; simpl; [|lia].
        rewrite map_size_delete, Hl.
        assert (size (txnList this) ≠ 0%nat); [|lia].
        intros Hz. apply map_size_empty_inv in Hz. by rewrite Hz in Hl. }
      assert (Hpresent : is_Some (txnList this !! Hash txn) ->
                         (deltxnList this txn).2 = true).
      { intros [t0 Ht0]. unfold deltxnList. by rewrite Ht0. }
      destruct (deltxnList this txn) as [this1 b]. simpl in Hdel, Hsize.
      simpl in Hpresent.
      assert (Hgoal : forall c1, c1 - c = (if b then 1 else 0) ->
        let r := foldl (fun '(this, (txnsNum, cleaned)) txn =>
                    if decide (TxType txn = BookKeeping)
                    then (this, (txnsNum - 1, cleaned))
                    else
                      match deltxnList this txn with
                      | (this, true) => (this, (txnsNum, cleaned + 1))
                      | (this, false) => (this, (txnsNum, cleaned))
                      end)
                 (this1, (n, c1)) txns in
        let bookKeeping :=
          Z.of_nat (length (filter (fun txn => TxType txn = BookKeeping)
                              txns)) in
        r.2.1 = n - bookKeeping /\
        r.2.2 - c = Z.of_nat (size (txnList this))
                    - Z.of_nat (size (txnList r.1)) /\
        0 <= r.2.2 - c <= Z.of_nat (length (txn :: txns)) - bookKeeping /\
        (NoDup (Hash <$> txn :: filter (fun txn => TxType txn ≠ BookKeeping)
                                  txns) ->
         (forall t, t ∈ txn :: txns -> TxType t ≠ BookKeeping ->
            is_Some (txnList this !! Hash t)) ->
         r.2.2 - c = Z.of_nat (length (txn :: txns)) - bookKeeping)).
      { intros c1 Hc1. specialize (IH this1 n c1). simpl in IH.
        destruct IH as (H1 & H2 & H3 & H4). simpl length.
        split; [done|]. split; [destruct b; lia|].
        split; [destruct b; lia|].
        intros Hnd Hpend. rewrite fmap_cons in Hnd.
        apply NoDup_cons in Hnd as [Hfresh Hnd].
        rewrite Hpresent in Hc1 by (apply Hpend; [by left|done]).
        assert (c1 = c + 1) as -> by lia.
        assert (Hrest : forall t, t ∈ txns -> TxType t ≠ BookKeeping ->
                  is_Some (txnList this1 !! Hash t)).
        { intros t Ht Hty. rewrite Hdel. simpl.
          rewrite lookup_delete_ne; [apply Hpend; [by right|done]|].
          intros Heq. apply Hfresh. rewrite Heq.
          apply list_elem_of_fmap_2. by apply list_elem_of_filter. }
        specialize (H4 Hnd Hrest). lia. }
      destruct b; by apply Hgoal; lia.
Qed.

(** X18.  The two counters of [cleanTransactionList]: the expected number is
    the length of the list minus its [BookKeeping] transactions; the cleaned
    number is the number of entries the pending set has lost, and never
    exceeds the expected one.  They agree, which is when the source writes
    no mismatch message, when the other transactions of the list have
    distinct hashes and are all pending. *)
Theorem cleanTransactionList_counts (this : TXNPool)
    (txns : list Transaction) :
  let r := cleanTransactionList this txns in
  let expected :=
    Z.of_nat (length txns)
    - Z.of_nat (length (filter (fun txn => TxType txn = BookKeeping) txns)) in
  r.2.1 = expected /\
  r.2.2 = Z.of_nat (size (txnList this)) - Z.of_nat (size (txnList r.1)) /\
  0 <= r.2.2 <= expected /\
  (NoDup (Hash <$> filter (fun txn => TxType txn ≠ BookKeeping) txns) ->
   (forall txn, txn ∈ txns -> TxType txn ≠ BookKeeping ->
      is_Some (txnList this !! Hash txn)) ->
   r.2.2 = expected).
Proof.
  unfold cleanTransactionList.
  pose proof (cleanTransactionList_counters this txns
                (Z.of_nat (length txns)) 0) as H.
  simpl in H. destruct H as (H1 & H2 & H3 & H4). simpl.
  split; [done|]. split; [lia|]. split; [lia|].
  intros Hnd Hpend. specialize (H4 Hnd Hpend). lia.
Qed.

Lemma foldl_frame {K A B} `{Countable K}
    (g : gmap K A -> B -> gmap K A) (l : list B) (m : gmap K A) (s : K) :
  (forall b, b ∈ l -> forall m, g m b !! s = m !! s) ->
  foldl g m l !! s = m !! s.
Proof.
  revert m. induction l as [|b l IH]; intros m Hg; [done|].
  simpl. rewrite IH.
  - apply Hg. by left.
  - intros b' Hb'. apply Hg. by right.
Qed.

Lemma decrAll_lookup_other this l a :
  a ∉ l.*1 ->
  issueSummary (decrAll this l) !! a = issueSummary this !! a.
Proof.
  revert this. induction l as [|[k d] l IH]; intros this Ha; [done|].
  unfold decrAll in *. simpl. rewrite IH.
  - apply decr_lookup_ne. intros ->. apply Ha. by left.
  - intros Hin. apply Ha. by right.
Qed.

Lemma cleanIssueSummary_lookup_other this txs a :
  (forall txn, txn ∈ txs -> TxType txn = IssueAsset ->
     a ∉ (GetMergedAssetIDValueFromOutputs txn).*1) ->
  issueSummary (cleanIssueSummary this txs) !! a = issueSummary this !! a.
Proof.
  revert this. induction txs as [|v txs IH]; intros this Ha; [done|].
  unfold cleanIssueSummary in *. simpl. rewrite IH.
  - case_decide; [|done]. apply decrAll_lookup_other. apply Ha; [by left|done].
  - intros txn Hin. apply Ha. by right.
Qed.

Lemma cleanLockedAssetList_other this txs str :
  (forall txn, txn ∈ txs -> lockAssetPayload txn ≠ Some str) ->
  str ∈ lockAssetList (cleanLockedAssetList this txs)
  <-> str ∈ lockAssetList this.
Proof.
  revert this. induction txs as [|txn txs IH]; intros this Hstr; [done|].
  unfold cleanLockedAssetList in *. simpl. rewrite IH.
  - assert (Hhead : lockAssetPayload txn ≠ Some str) by (apply Hstr; by left).
    destruct (lockAssetPayload txn) as [str'|]; [|done]. simpl.
    rewrite elem_of_difference, elem_of_singleton.
    split; [by intros [? _]|]. intros Hin. split; [done|]. congruence.
  - intros t Ht. apply Hstr. by right.
Qed.

(** X19.  [CleanSubmittedTransactions] leaves alone what the block does not
    name: a pending hash that no transaction of the block other than a
    [BookKeeping] one carries, a claimed output that no transaction of the
    block references, a lock target that no transaction of the block has, and
    the summary of an asset that no issuing transaction of the block
    issues. *)
Theorem CleanSubmittedTransactions_frame (this : TXNPool)
    (block : list Transaction) :
  let this' := CleanSubmittedTransactions this block in
  (forall h,
     (forall txn, txn ∈ block -> TxType txn ≠ BookKeeping -> Hash txn ≠ h) ->
     txnList this' !! h = txnList this !! h) /\
  (forall s,
     (forall txn reference k, txn ∈ block ->
        GetReference txn = Some reference -> k ∈ reference ->
        ToString k ≠ s) ->
     inputUTXOList this' !! s = inputUTXOList this !! s) /\
  (forall str,
     (forall txn, txn ∈ block -> lockAssetPayload txn ≠ Some str) ->
     str ∈ lockAssetList this' <-> str ∈ lockAssetList this) /\
  (forall a,
     (forall txn, txn ∈ block -> TxType txn = IssueAsset ->
        a ∉ (GetMergedAssetIDValueFromOutputs txn).*1) ->
     issueSummary this' !! a = issueSummary this !! a).
Proof.
  intros this'. subst this'. unfold CleanSubmittedTransactions.
  set (this1 := (cleanTransactionList this block).1).
  set (this2 := cleanUTXOList this1 block).
  set (this3 := cleanLockedAssetList this2 block).
  destruct (cleanIssueSummary_fields this3 block) as (_ & Htl4 & Hin4 & Hlk4).
  destruct (cleanLockedAssetList_fields this2 block)
    as (_ & Htl3 & Hsum3 & Hin3).
  fold this3 in Htl3, Hsum3, Hin3. simpl in Htl4, Hin4, Hlk4.
  split; [|split; [|split]].
  - intros h Hh. rewrite Htl4, Htl3. subst this2 this1.
    rewrite cleanUTXOList_eq, cleanTransactionList_eq. simpl.
    apply foldl_frame. intros txn Hin m. case_decide; [done|].
    apply lookup_delete_ne. by apply Hh.
  - intros s Hs. rewrite Hin4, Hin3. subst this2 this1.
    rewrite cleanUTXOList_eq, cleanTransactionList_eq. simpl.
    apply foldl_frame. intros txn Hin m. rewrite foldl_delete_lookup.
    rewrite decide_False; [done|]. intros Hel.
    apply list_elem_of_fmap in Hel as (k & -> & Hk).
    destruct (GetReference txn) as [reference|] eqn:Href;
      [|by apply elem_of_nil in Hk].
    by apply (Hs txn reference k).
  - intros str Hstr. rewrite Hlk4. subst this3.
    rewrite (cleanLockedAssetList_other this2 block str Hstr).
    subst this2 this1. by rewrite cleanUTXOList_eq, cleanTransactionList_eq.
  - intros a Ha. rewrite (cleanIssueSummary_lookup_other this3 block a Ha).
    rewrite Hsum3. subst this2 this1.
    by rewrite cleanUTXOList_eq, cleanTransactionList_eq.
Qed.

Lemma decr_dom this k d :
  dom (issueSummary (decrAssetIssueAmountSummary this k d))
  = dom (issueSummary this).
Proof.
  unfold decrAssetIssueAmountSummary.
  destruct (issueSummary this !! k) as [old|] eqn:Hold; [|done].
  simpl. rewrite dom_insert_L.
  assert (k ∈ dom (issueSummary this)) by (apply elem_of_dom; eauto).
  apply set_eq. intros x. rewrite elem_of_union, elem_of_singleton.
  split; [intros [->|?]; done|by right].
Qed.

Lemma decr_not_negative this k d :
  (forall a v, issueSummary this !! a = Some v -> 0 <= v) ->
  forall a v,
    issueSummary (decrAssetIssueAmountSummary this k d) !! a = Some v ->
    0 <= v.
Proof.
  intros Hthis a v. unfold decrAssetIssueAmountSummary.
  destruct (issueSummary this !! k) as [old|] eqn:Hold; [|apply Hthis].
  simpl. destruct (decide (k = a)) as [<-|Hne].
  - rewrite lookup_insert_eq. intros [= <-].
    destruct (Z.ltb_spec (sub64 old d) 0); lia.
  - rewrite lookup_insert_ne by done. apply Hthis.
Qed.

Lemma decrAll_entries this l :
  dom (issueSummary (decrAll this l)) = dom (issueSummary this) /\
  ((forall a v, issueSummary this !! a = Some v -> 0 <= v) ->
   forall a v, issueSummary (decrAll this l) !! a = Some v -> 0 <= v).
Proof.
  revert this. induction l as [|[k d] l IH]; intros this; [done|].
  unfold decrAll in *. simpl.
  destruct (IH (decrAssetIssueAmountSummary this k d)) as [Hdom Hnn].
  split; [by rewrite Hdom, decr_dom|].
  intros Hthis. apply Hnn. by apply decr_not_negative.
Qed.

Lemma cleanIssueSummary_entries this txs :
  dom (issueSummary (cleanIssueSummary this txs)) = dom (issueSummary this) /\
  ((forall a v, issueSummary this !! a = Some v -> 0 <= v) ->
   forall a v, issueSummary (cleanIssueSummary this txs) !! a = Some v ->
               0 <= v).
Proof.
  revert this. induction txs as [|t txs IH]; intros this; [done|].
  unfold cleanIssueSummary in *. simpl.
  match goal with |- context [foldl ?f ?a txs] => specialize (IH a) end.
  destruct IH as [Hdom Hnn]. case_decide; [|done].
  destruct (decrAll_entries this (GetMergedAssetIDValueFromOutputs t))
    as [Hdom1 Hnn1].
  split; [by rewrite Hdom, Hdom1|]. intros Hthis. by apply Hnn, Hnn1.
Qed.

(** X20.  Removal never creates and never deletes an entry of the issuance
    summary: after [removeTransaction] and after [CleanSubmittedTransactions]
    the summary has an entry for exactly the assets it had one for, an entry
    that is used up staying as zero.  If no stored amount was negative, none
    is afterwards. *)
Theorem removal_keeps_summary_entries (this : TXNPool) (txn : Transaction)
    (block : list Transaction) :
  dom (issueSummary (removeTransaction this txn)) = dom (issueSummary this) /\
  dom (issueSummary (CleanSubmittedTransactions this block))
  = dom (issueSummary this) /\
  ((forall a v, issueSummary this !! a = Some v -> 0 <= v) ->
   (forall a v, issueSummary (removeTransaction this txn) !! a = Some v ->
      0 <= v) /\
   (forall a v,
      issueSummary (CleanSubmittedTransactions this block) !! a = Some v ->
      0 <= v)).
Proof.
  assert (Hrm : issueSummary (removeTransaction this txn) = issueSummary this
                \/ issueSummary (removeTransaction this txn)
                   = issueSummary
                       (decrAll this (GetMergedAssetIDValueFromOutputs txn))).
  { destruct (GetReference txn) as [reference|] eqn:Href.
    - destruct (decide (TxType txn = IssueAsset)) as [Hty|Hty].
      + right. by apply removeTransaction_summary with (reference := reference).
      + left. unfold removeTransaction. rewrite Href, deltxnList_eq.
        rewrite decide_False by done. by rewrite delInputs_eq.
    - left. unfold removeTransaction. by rewrite Href, deltxnList_eq. }
  assert (Hcl : issueSummary (CleanSubmittedTransactions this block)
                = issueSummary (cleanIssueSummary this block)).
  { unfold CleanSubmittedTransactions. cbv zeta.
    assert (Hs : issueSummary
                   (cleanLockedAssetList
                      (cleanUTXOList (cleanTransactionList this block).1 block)
                      block) = issueSummary this).
    { destruct (cleanLockedAssetList_fields
                  (cleanUTXOList (cleanTransactionList this block).1 block)
                  block) as (_ & _ & Hs & _).
      simpl in Hs. rewrite Hs.
      by rewrite cleanUTXOList_eq, cleanTransactionList_eq. }
    revert Hs.
    generalize (cleanLockedAssetList
                  (cleanUTXOList (cleanTransactionList this block).1 block)
                  block).
    clear. intros that Hs.
    revert this that Hs. induction block as [|t block IH]; intros this that Hs;
      [done|].
    unfold cleanIssueSummary in *. simpl. apply IH.
    case_decide; [|done]. clear IH.
    revert this that Hs.
    induction (GetMergedAssetIDValueFromOutputs t) as [|[k d] l IHl];
      intros this that Hs; [done|].
    unfold decrAll in *. simpl. apply IHl.
    unfold decrAssetIssueAmountSummary. rewrite Hs.
    destruct (issueSummary this !! k); simpl; by rewrite ?Hs. }
  destruct (decrAll_entries this (GetMergedAssetIDValueFromOutputs txn))
    as [Hdom1 Hnn1].
  destruct (cleanIssueSummary_entries this block) as [Hdom2 Hnn2].
  rewrite Hcl. split; [|split; [done|]].
  - destruct Hrm as [->| ->]; done.
  - intros Hthis. split; [|by apply Hnn2].
    destruct Hrm as [->| ->]; [done|by apply Hnn1].
Qed.

(** X21.  [copytxnList], and [GetTxnPool] when it is not asked to count,
    return the pending set, entry for entry, in whatever order the loop
    visits it and whatever the configured maximum is. *)
Theorem copytxnList_is_txnList (this : TXNPool)
    (order : list (Uint256 * Transaction)) :
  order ≡ₚ map_to_list (txnList this) ->
  copytxnList this order = txnList this /\
  GetTxnPool this order false = txnList this.
Proof.
  intros Hperm.
  assert (Hnd : NoDup order.*1).
  { rewrite Hperm. apply NoDup_fst_map_to_list. }
  assert (Hlen : length order = size (txnList this)).
  { rewrite Hperm. apply length_map_to_list. }
  assert (Hall : list_to_map order = txnList this).
  { rewrite (list_to_map_proper order (map_to_list (txnList this))) by done.
    apply list_to_map_to_list. }
  split.
  - unfold copytxnList. rewrite foldl_insert_list_to_map by done.
    by rewrite (right_id_L ∅ (∪)).
  - rewrite (GetTxnPool_take this order false Hnd Hlen).
    rewrite orb_true_r. by rewrite firstn_all.
Qed.

End Reconciliation.

(** * The further properties on the sample ledger *)

Section MoreOnSample.
Import Sample.
Local Existing Instance E.

(** X1 on the sample: one validator, then the other, answers a code of its
    own. *)
Lemma AppendTxnPool_validation_failure_witness :
  @AppendTxnPool (Variant.rejecting (ErrValidation 7) ErrNoError) init T1 true
  = (init, ErrValidation 7) /\
  @AppendTxnPool (Variant.rejecting ErrNoError (ErrValidation 8)) init T1 true
  = (init, ErrValidation 8).
Proof.
  split.
  - destruct (@AppendTxnPool_validation_failure
                (Variant.rejecting (ErrValidation 7) ErrNoError) init T1 true)
      as [H1 _].
    apply H1. discriminate.
  - destruct (@AppendTxnPool_validation_failure
                (Variant.rejecting ErrNoError (ErrValidation 8)) init T1 true)
      as [_ H2].
    apply H2; [reflexivity|discriminate].
Defined.

(** X2 on the sample: [T1] admitted without the pool checks claims nothing. *)
Lemma AppendTxnPool_without_pool_checks_witness :
  (AppendTxnPool init T1 false).2 = ErrNoError /\
  inputUTXOList (AppendTxnPool init T1 false).1 = inputUTXOList init.
Proof.
  pose proof (@AppendTxnPool_without_pool_checks E init T1 eq_refl eq_refl)
    as H.
  cbv zeta in H. destruct H as (H1 & _ & _ & H2 & _).
  split; [exact H1|exact H2].
Defined.

(** X3 on the sample: [T1] admitted to the empty pool. *)
Lemma AppendTxnPool_then_GetTransaction_witness :
  GetTransaction (accept init T1) (Hash T1) = Some T1 /\
  GetTransactionCount (accept init T1) = 1.
Proof.
  assert (Hok : AppendTxnPool init T1 true = (accept init T1, ErrNoError))
    by (vm_compute; reflexivity).
  destruct (@AppendTxnPool_then_GetTransaction E init (accept init T1) T1
              true Hok) as [Hfresh _].
  destruct Hfresh as [H1 H2]; [reflexivity|].
  split; [exact H1|]. rewrite H2. vm_compute. reflexivity.
Defined.

(** X4 on the sample: the rejected [T2] leaves the pending [T1] in place. *)
Lemma AppendTxnPool_rejected_witness :
  txnList (AppendTxnPool (accept init T1) T2 true).1 !! Hash T1
  = txnList (accept init T1) !! Hash T1.
Proof.
  pose proof (@AppendTxnPool_rejected E (accept init T1) T2 true) as H.
  cbv zeta in H. destruct H as [Hother _].
  - vm_compute. discriminate.
  - apply Hother. vm_compute. discriminate.
Defined.

(** X5 on the sample: [T1] inserted into the empty pool and deleted again. *)
Lemma addtxnList_then_deltxnList_witness :
  deltxnList (addtxnList init T1).1 T1 = (init, true).
Proof.
  destruct (addtxnList_then_deltxnList init T1) as [Hfresh _].
  destruct Hfresh as (_ & H & _); [reflexivity|exact H].
Defined.

(** X6 on the sample: inputs that do not resolve are a double spend. *)
Lemma verifyTransactionWithTxnPool_double_spend_iff_witness :
  (@verifyTransactionWithTxnPool Variant.unresolved init T1).2
  = ErrDoubleSpend.
Proof.
  destruct (@verifyTransactionWithTxnPool_double_spend_iff
              Variant.unresolved init T1) as [[_ Hback] _].
  apply Hback. left. reflexivity.
Defined.

(** X7 on the sample: the rejected [T2] leaves output (7,0) to [T1]. *)
Lemma verifyTransactionWithTxnPool_keeps_claims_witness :
  inputUTXOList (verifyTransactionWithTxnPool (accept init T1) T2).1
    !! ToString (out 0) = Some T1.
Proof.
  apply (@verifyTransactionWithTxnPool_keeps_claims E).
  vm_compute. reflexivity.
Defined.

(** X8 on the sample: the transfer [T1] moves neither guard nor summary. *)
Lemma verifyTransactionWithTxnPool_frame_witness :
  lockAssetList (verifyTransactionWithTxnPool init T1).1 = lockAssetList init
  /\ issueSummary (verifyTransactionWithTxnPool init T1).1
     = issueSummary init.
Proof.
  pose proof (@verifyTransactionWithTxnPool_frame E init T1) as H.
  cbv zeta in H. destruct H as (_ & Hlock & Hissue).
  destruct Hlock as [_ Hlock]; [discriminate|].
  destruct Hissue as (_ & Hissue & _); [discriminate|].
  split; [exact Hlock|exact Hissue].
Defined.

(** X9 on the sample: [L2] after [L1]. *)
Lemma verifyTransactionWithTxnPool_second_lock_witness :
  verifyTransactionWithTxnPool (verifyTransactionWithTxnPool init L1).1 L2
  = (addInputs (verifyTransactionWithTxnPool init L1).1 L2 [out 2],
     ErrDuplicateLockAsset).
Proof.
  apply (@verifyTransactionWithTxnPool_second_lock E init _ L1 L2
           "lock"%string [out 2]).
  - vm_compute. reflexivity.
  - reflexivity.
  - reflexivity.
  - reflexivity.
  - intros k Hk. apply list_elem_of_singleton in Hk. subst k.
    vm_compute. reflexivity.
Defined.

(** X10 on the sample: [T2] after [T1]. *)
Lemma AppendTxnPool_pending_double_spend_witness :
  AppendTxnPool (accept init T1) T2 true = (accept init T1, ErrDoubleSpend).
Proof.
  apply (@AppendTxnPool_pending_double_spend E init (accept init T1) T1 T2
           [out 0] [out 0] (out 0) (out 0)).
  - vm_compute. reflexivity.
  - reflexivity.
  - reflexivity.
  - by left.
  - by left.
  - reflexivity.
  - reflexivity.
  - reflexivity.
Defined.

(** X11 on the sample: [I5] issues asset 12, registered without a cap. *)
Lemma verifyTransactionWithTxnPool_unbounded_witness :
  (verifyTransactionWithTxnPool init I5).2 = ErrNoError.
Proof.
  apply (@verifyTransactionWithTxnPool_unbounded E init I5 []
           eq_refl eq_refl).
  - intros k Hk. by apply elem_of_nil in Hk.
  - intros k d Hin. apply list_elem_of_singleton in Hin.
    injection Hin as -> ->. exists regU. exists (-1).
    split; [reflexivity|]. split; [reflexivity|lia].
Defined.

(** X12 on the sample: asset 99 was never registered. *)
Lemma verifyTransactionWithTxnPool_unanswered_witness :
  (@verifyTransactionWithTxnPool Variant.unregistered init I2).2
  = ErrSummaryAsset.
Proof.
  apply (@verifyTransactionWithTxnPool_unanswered Variant.unregistered
           init I2 [out 4] 99%N 1 eq_refl eq_refl).
  - intros k Hk. apply list_elem_of_singleton in Hk. by subst k.
  - by left.
  - intros (reg & Amount & Hreg & _). vm_compute in Hreg. discriminate Hreg.
Defined.

(** X13 on the sample: [I4] is turned down and the 50 pending of asset 11 are
    still counted. *)
Lemma verifyTransactionWithTxnPool_single_asset_rollback_witness :
  getAssetIssueAmount
    (verifyTransactionWithTxnPool (accept init I3) I4).1 11 = 50.
Proof.
  assert (Hold : getAssetIssueAmount (accept init I3) 11 = 50)
    by (vm_compute; reflexivity).
  destruct (@verifyTransactionWithTxnPool_single_asset_rollback E
              (accept init I3)
              (verifyTransactionWithTxnPool (accept init I3) I4).1
              I4 11%N 60) as (_ & _ & _ & Hget).
  - vm_compute. reflexivity.
  - reflexivity.
  - rewrite Hold. unfold amount. lia.
  - rewrite Hget. exact Hold.
Defined.

(** X14 on the sample: [L1] admitted to the empty pool holds its lock. *)
Lemma AppendTxnPool_with_pool_checks_witness :
  "lock"%string ∈ lockAssetList (accept init L1).
Proof.
  assert (Hok : AppendTxnPool init L1 true = (accept init L1, ErrNoError))
    by (vm_compute; reflexivity).
  destruct (@AppendTxnPool_with_pool_checks E init (accept init L1) L1 Hok)
    as (reference & _ & _ & Hlock & _).
  by apply (Hlock "lock"%string).
Defined.

(** X15 on the sample: the pending [T1] removed. *)
Lemma removeTransaction_effect_witness :
  txnList (removeTransaction (accept init T1) T1)
  = delete (Hash T1) (txnList (accept init T1)) /\
  inputUTXOList (removeTransaction (accept init T1) T1) !! ToString (out 0)
  = None.
Proof.
  pose proof (@removeTransaction_effect E (accept init T1) T1 [out 0]
                eq_refl) as H.
  cbv zeta in H. destruct H as (H1 & H2 & _).
  split; [exact H1|]. rewrite H2. apply decide_True.
  apply list_elem_of_fmap_2. by left.
Defined.

(** X16 on the sample: the store no longer resolves the inputs of [I2]. *)
Lemma removeTransaction_unresolved_witness :
  @removeTransaction Variant.unresolved (accept init I2) I2
  = set_txnList (delete (Hash I2)) (accept init I2).
Proof.
  exact (@removeTransaction_unresolved Variant.unresolved (accept init I2) I2
           eq_refl).
Defined.

(** X17 on the sample: 50 pending of asset 11, and an amount that makes the
    addition wrap around. *)
Lemma incr_then_decr_witness :
  getAssetIssueAmount
    (decrAssetIssueAmountSummary
       (incrAssetIssueAmountSummary (accept init I2) 11 (2 ^ 63 - 1))
       11 (2 ^ 63 - 1)) 11 = 50.
Proof.
  assert (Hold : getAssetIssueAmount (accept init I2) 11 = 50)
    by (vm_compute; reflexivity).
  pose proof (incr_then_decr (accept init I2) 11%N (2 ^ 63 - 1)) as H.
  cbv zeta in H. destruct H as [Hget _].
  - rewrite Hold. unfold amount. lia.
  - rewrite Hget. exact Hold.
Defined.

(** X18 on the sample: a block of the reward transaction and three pending
    ones. *)
Lemma cleanTransactionList_counts_witness :
  let this := accept (accept (accept init T1) L1) I2 in
  (cleanTransactionList this [B0; T1; L1; I2]).2.1 = 3 /\
  (cleanTransactionList this [B0; T1; L1; I2]).2.2 = 3.
Proof.
  intros this.
  pose proof (cleanTransactionList_counts this [B0; T1; L1; I2]) as H.
  cbv zeta in H. destruct H as (H1 & _ & _ & H4). split.
  - rewrite H1. vm_compute. reflexivity.
  - rewrite H4; [vm_compute; reflexivity| |].
    + apply (@bool_decide_unpack _ (NoDup_dec _)). vm_compute. exact I.
    + intros txn Hin Hty.
      repeat (apply elem_of_cons in Hin as [->|Hin]).
      * by destruct Hty.
      * vm_compute. by eexists.
      * vm_compute. by eexists.
      * vm_compute. by eexists.
      * by apply elem_of_nil in Hin.
Defined.

(** X19 on the sample: a block with [T1] leaves the pending [L1]. *)
Lemma CleanSubmittedTransactions_frame_witness :
  let this := accept (accept init T1) L1 in
  txnList (CleanSubmittedTransactions this [T1]) !! Hash L1 = Some L1.
Proof.
  intros this.
  pose proof (@CleanSubmittedTransactions_frame E this [T1]) as H.
  cbv zeta in H. destruct H as (Hpending & _).
  rewrite Hpending.
  - vm_compute. reflexivity.
  - intros txn Hin _. apply list_elem_of_singleton in Hin. subst txn.
    vm_compute. discriminate.
Defined.

(** X20 on the sample: the issue [I2] removed, its asset keeps an entry. *)
Lemma removal_keeps_summary_entries_witness :
  let this := accept init I2 in
  dom (issueSummary (removeTransaction this I2)) = dom (issueSummary this) /\
  (forall a v, issueSummary (CleanSubmittedTransactions this [I2]) !! a
               = Some v -> 0 <= v).
Proof.
  intros this.
  destruct (@removal_keeps_summary_entries E this I2 [I2])
    as (Hdom & _ & Hnn).
  split; [exact Hdom|]. apply Hnn.
  assert (Hs : issueSummary this = {[11%N := 50]})
    by (vm_compute; reflexivity).
  intros a v. rewrite Hs. intros [<- <-]%lookup_singleton_Some. lia.
Defined.

(** X21 on the sample: [T1] and [L1] pending. *)
Lemma copytxnList_is_txnList_witness :
  let this := accept (accept init T1) L1 in
  copytxnList this (map_to_list (txnList this)) = txnList this.
Proof.
  intros this.
  by apply (@copytxnList_is_txnList E this (map_to_list (txnList this))).
Defined.

End MoreOnSample.

(** * Single-transaction removal, field by field *)

Section Removal.
Context `{Externals}.

(** The range loop of step 3 visits the keys of a Go map, which are distinct:
    each issued asset is decremented once. *)
Lemma decrAll_lookup_issued this l k d :
  NoDup l.*1 -> (k, d) ∈ l ->
  issueSummary (decrAll this l) !! k
  = (fun old => Z.max (sub64 old d) 0) <$> issueSummary this !! k.
Proof.
  revert this. induction l as [|[k' d'] l IH]; intros this Hnd Hin.
  - by apply elem_of_nil in Hin.
  - rewrite fmap_cons in Hnd. apply NoDup_cons in Hnd as [Hfresh Hnd].
    change (decrAll this ((k', d') :: l))
      with (decrAll (decrAssetIssueAmountSummary this k' d') l).
    apply elem_of_cons in Hin as [[= -> ->]|Hin].
    + rewrite decrAll_lookup_other by exact Hfresh.
      destruct (issueSummary this !! k') as [old|] eqn:Hold.
      * rewrite (decr_unfold _ _ _ _ Hold). simpl.
        by rewrite lookup_insert_eq.
      * rewrite decr_absent by done. by rewrite Hold.
    + rewrite (IH _ Hnd Hin). f_equal. apply decr_lookup_ne.
      intros Heq. apply Hfresh. rewrite Heq.
      exact (list_elem_of_fmap_2 fst l (k, d) Hin).
Qed.

(** C5, as amended.  [removeTransaction] takes the transaction out of the
    pending set and leaves the duplicate-lock guard as it is, for every
    transaction; an [IssueAsset] transaction, the kind the issuance check
    turns down, has no lock target.  When the inputs of the transaction
    resolve, every output it references leaves the claimed-input index and
    no other key moves; the issuance summary stays for a transaction that is
    not [IssueAsset], and for an [IssueAsset] transaction the entry of each
    asset it issues goes from old to max (old - delta, 0), the subtraction
    being the one of [Fixed64], an asset without an entry getting none, and
    the entries of the other assets stay. *)
Theorem removeTransaction_removes (this : TXNPool) (txn : Transaction) :
  let this' := removeTransaction this txn in
  txnList this' = delete (Hash txn) (txnList this) /\
  lockAssetList this' = lockAssetList this /\
  (TxType txn = IssueAsset -> lockAssetPayload txn = None) /\
  (forall reference, GetReference txn = Some reference ->
     (forall k, k ∈ reference ->
        inputUTXOList this' !! ToString k = None) /\
     (forall s, (s ∉ ToString <$> reference) ->
        inputUTXOList this' !! s = inputUTXOList this !! s) /\
     (TxType txn ≠ IssueAsset -> issueSummary this' = issueSummary this) /\
     (TxType txn = IssueAsset ->
      NoDup (GetMergedAssetIDValueFromOutputs txn).*1 ->
        (forall k d, (k, d) ∈ GetMergedAssetIDValueFromOutputs txn ->
           issueSummary this' !! k
           = (fun old => Z.max (sub64 old d) 0) <$> issueSummary this !! k) /\
        (forall a, (a ∉ (GetMergedAssetIDValueFromOutputs txn).*1) ->
           issueSummary this' !! a = issueSummary this !! a))).
Proof.
  intros this'. subst this'.
  split; [apply removeTransaction_txnList|].
  split; [apply removeTransaction_lockAssetList|].
  split.
  { intros Hty. unfold lockAssetPayload.
    destruct txn as [ty pl h]. simpl in *. by subst ty. }
  intros reference Href. split; [|split; [|split]].
  - intros k Hk. by apply removeTransaction_released with reference.
  - intros s Hs. rewrite (removeTransaction_inputUTXOList _ _ _ Href).
    rewrite delInputs_lookup. by rewrite decide_False.
  - intros Hty. unfold removeTransaction. rewrite Href, deltxnList_eq.
    rewrite decide_False by done. by rewrite delInputs_eq.
  - intros Hty Hnd.
    rewrite (removeTransaction_summary _ _ _ Href Hty). split.
    + intros k d Hin. by apply decrAll_lookup_issued.
    + intros a Ha. by apply decrAll_lookup_other.
Qed.

End Removal.

(** C5, as amended, on the sample: [I2], which issues 50 of asset 11 and
    references output (7,4), is pending and is removed. *)
Lemma removeTransaction_removes_witness :
  let this := Sample.accept init Sample.I2 in
  let this' := @removeTransaction Sample.E this Sample.I2 in
  inputUTXOList this' !! Sample.ToString (Sample.out 4) = None /\
  issueSummary this' !! 11%N = Some 0.
Proof.
  intros this this'.
  pose proof (@removeTransaction_removes Sample.E this Sample.I2) as Hrm.
  cbv zeta in Hrm. destruct Hrm as (_ & _ & _ & Hrm).
  destruct (Hrm [Sample.out 4] eq_refl) as (Hrel & _ & _ & Hsum).
  split.
  - apply Hrel. by left.
  - destruct Hsum as [Hissued _]; [reflexivity| |].
    + apply (@bool_decide_unpack _ (NoDup_dec _)). vm_compute. exact I.
    + subst this'. rewrite (Hissued 11%N 50); [|by left].
      vm_compute. reflexivity.
Defined.
